(** * AiiDA-CP2K output parser: a shallow embedding of
      [aiida_cp2k/parsers/__init__.py] and the properties of its result
      assembly.

    The Python module defines two parser classes, [Cp2kBaseParser] and
    [Cp2kAdvancedParser].  Both read the retrieved folder of a finished
    calculation, hand the standard output to [parse_cp2k_output], turn the
    resulting dictionary into output nodes and finally try to extract the
    last geometry from the restart file.

    The embedding keeps the structure of the Python code:
    - dictionaries are [gmap string value] over a small universe of
      Python values, with IEEE binary64 numbers as primitive floats;
    - methods run in a monad [M] that carries the chronological log of
      the calls made on the outside world (folder listing, file reads,
      calls of the two text parsers, [self.out]) and may raise a Python
      exception;
    - the two classes are instances of one class [Cp2kParser] that
      overrides [sections] and [_create_output_nodes];
    - what the module calls outside itself is a parameter: the two text
      parsers of [aiida_cp2k.utils.parser], the checks that AiiDA's
      [BandsData] and the constructors [ase.Atoms] and [StructureData]
      make on their arguments, and what reading each object of the
      retrieved folder gives. *)

From Stdlib Require Import ZArith Ascii.
From Stdlib Require Import Floats.PrimFloat Floats.SpecFloat Floats.FloatOps.
From stdpp Require Import base option list strings gmap fin_maps.

#[local] Set Warnings "-inexact-float,-register-all".
#[local] Open Scope Z_scope.

(** ** Python values *)

(** The values a result dictionary holds: booleans (status sentinels),
    integers, floats, strings, sequences and nested mappings. *)
Inductive value :=
| VBool (b : bool)
| VInt (n : Z)
| VFloat (x : float)
| VStr (s : string)
| VList (l : list value)
| VDict (d : gmap string value).

Abbreviation dict := (gmap string value).

(** ** Exceptions and the parser monad *)

Inductive exn :=
| NotExistent            (* aiida.common.exceptions.NotExistent *)
| IOError
| KeyError (key : string)
| IndexError
| TypeError
| ValueError
| OverflowError.

Inductive outcome (A : Type) :=
| Raise (e : exn)
| Return (a : A).
Arguments Raise {A} e.
Arguments Return {A} a.

(** What [aiida.engine.ExitCode] values the parser can return.  The named
    ones are attributes of [self.exit_codes], declared by the calculation
    class; they are taken to be distinct codes. *)
Inductive ExitCode :=
| ExitCode_0
| ERROR_NO_RETRIEVED_FOLDER
| ERROR_OUTPUT_STDOUT_MISSING
| ERROR_OUTPUT_STDOUT_READ
| ERROR_GEOMETRY_CONVERGENCE_NOT_REACHED
| ERROR_UKS_NEEDED
| ERROR_OUTPUT_CONTAINS_ABORT.

(** [_parse_stdout] and [_parse_trajectory] return either an exit code or
    a payload; [parse] tells them apart with [isinstance]. *)
Inductive returned (A : Type) :=
| Code (c : ExitCode)
| Value (a : A).
Arguments Code {A} c.
Arguments Value {A} a.

(** [BandsData]: a fresh node has nothing set; [set_kpoints], the [labels]
    setter and [set_bands] fill it in. *)
Record bands_data := mk_bands {
  bd_kpoints : option value;
  bd_labels : option value;
  bd_bands : option value;
  bd_units : option value;
}.

Definition BandsData_new : bands_data := mk_bands None None None None.

(** The checks of AiiDA and ASE that the module relies on without
    containing them.  Each setter of [BandsData] validates its argument
    against the node as it stands (the bands against the k-points, the
    labels against the k-points) and raises when it rejects it;
    [ase.Atoms] on the keyword arguments, followed by [StructureData] on
    its result, raises on arguments it cannot make a structure of. *)
Record library := {
  validate_kpoints : bands_data → value → outcome unit;
  validate_labels : bands_data → value → outcome unit;
  validate_bands : bands_data → value → value → outcome unit;
  validate_structure : gmap string value → outcome unit;
}.

(** [bnds.set_kpoints(kpts)]: the value is stored once it is accepted. *)
Definition set_kpoints (lib : library) (kpts : value) (b : bands_data)
  : outcome bands_data :=
  match validate_kpoints lib b kpts with
  | Return _ => Return (mk_bands (Some kpts) (bd_labels b) (bd_bands b) (bd_units b))
  | Raise e => Raise e
  end.

(** [bnds.labels = lbls] *)
Definition set_labels (lib : library) (lbls : value) (b : bands_data)
  : outcome bands_data :=
  match validate_labels lib b lbls with
  | Return _ => Return (mk_bands (bd_kpoints b) (Some lbls) (bd_bands b) (bd_units b))
  | Raise e => Raise e
  end.

(** [bnds.set_bands(bnds, units=units)] *)
Definition set_bands (lib : library) (bnds units : value) (b : bands_data)
  : outcome bands_data :=
  match validate_bands lib b bnds units with
  | Return _ => Return (mk_bands (bd_kpoints b) (bd_labels b) (Some bnds) (Some units))
  | Raise e => Raise e
  end.

(** Output nodes. [StructureData] keeps the keyword arguments handed to
    [ase.Atoms], once they were accepted. *)
Inductive node :=
| Dict (d : dict)
| StructureData (ase : dict)
| BandsData (b : bands_data).

(** Calls on the outside world, in the order they are made. *)
Inductive event :=
| EListObjectNames
| EGetObjectContent (fname : string)
| EParseOutput (text : string) (sections : list string)
| EParseTrajectory (text : string)
| EOut (label : string) (n : node).

Definition M (A : Type) : Type := list event → outcome A * list event.

#[export] Instance M_ret : MRet M := λ A a tr, (Return a, tr).

#[export] Instance M_bind : MBind M := λ A B f m tr,
  match m tr with
  | (Return a, tr') => f a tr'
  | (Raise e, tr') => (Raise e, tr')
  end.

Definition raise {A} (e : exn) : M A := λ tr, (Raise e, tr).

Definition emit (ev : event) : M unit := λ tr, (Return (), tr ++ [ev]).

Definition lift {A} (o : outcome A) : M A := λ tr, (o, tr).

(** [try: body except E: handler], for the exception [E] selected by
    [catches]. Effects of the body before the exception stay. *)
Definition try_except {A} (body : M A) (catches : exn → bool) (handler : M A) : M A :=
  λ tr, match body tr with
        | (Raise e, tr') => if catches e then handler tr' else (Raise e, tr')
        | r => r
        end.

Definition is_NotExistent (e : exn) : bool :=
  match e with NotExistent => true | _ => false end.

Definition is_IOError (e : exn) : bool :=
  match e with IOError => true | _ => false end.

(** The nodes registered with [self.out], in order. *)
Definition outputs_of (tr : list event) : list (string * node) :=
  omap (λ ev, match ev with EOut l n => Some (l, n) | _ => None end) tr.

(** ** Dictionary and sequence operations *)

(** [k in d] *)
Definition has_key (k : string) (d : dict) : bool := bool_decide (is_Some (d !! k)).

(** [d[k]] *)
Definition getitem (d : dict) (k : string) : outcome value :=
  match d !! k with
  | Some v => Return v
  | None => Raise (KeyError k)
  end.

(** The accessors below fix the shape the code expects of a value: a
    sequence where it takes [len] and indexes, an integer where it uses
    the value as an index.  Any other shape is reported as [TypeError];
    Python is more lenient on some of them (a float compares with an
    integer, [len] accepts a string), and no statement below is about
    such dictionaries. *)
Definition as_list (v : value) : outcome (list value) :=
  match v with VList l => Return l | _ => Raise TypeError end.

Definition as_int (v : value) : outcome Z :=
  match v with VInt n => Return n | _ => Raise TypeError end.

Definition len (l : list value) : Z := Z.of_nat (length l).

(** [l[i]] with Python's negative indices: [-1] is the last element. *)
Definition py_index (l : list value) (i : Z) : outcome value :=
  let i' := if i <? 0 then i + len l else i in
  if (0 <=? i') && (i' <? len l) then
    match l !! Z.to_nat i' with
    | Some v => Return v
    | None => Raise IndexError
    end
  else Raise IndexError.

(** The operands [-] is defined on: [int], with [bool] as its subclass,
    and [float]. *)
Inductive number :=
| NInt (n : Z)
| NFloat (x : float).

Definition as_number (v : value) : option number :=
  match v with
  | VBool b => Some (NInt (if b then 1 else 0))
  | VInt n => Some (NInt n)
  | VFloat x => Some (NFloat x)
  | _ => None
  end.

(** [float(n)] for an [int]: the nearest binary64 number, ties to even,
    and [OverflowError] when that is out of range. *)
Definition float_of_int (n : Z) : outcome float :=
  match binary_normalize prec emax n 0 false with
  | S754_infinity _ => Raise OverflowError
  | f => Return (SF2Prim f)
  end.

(** [a - b]: exact on two integers; with a float on either side the
    integer is converted first. *)
Definition py_sub (a b : value) : outcome value :=
  match as_number a, as_number b with
  | Some (NInt m), Some (NInt n) => Return (VInt (m - n))
  | Some (NFloat x), Some (NFloat y) => Return (VFloat (x - y)%float)
  | Some (NInt m), Some (NFloat y) =>
      match float_of_int m with
      | Return x => Return (VFloat (x - y)%float)
      | Raise e => Raise e
      end
  | Some (NFloat x), Some (NInt n) =>
      match float_of_int n with
      | Return y => Return (VFloat (x - y)%float)
      | Raise e => Raise e
      end
  | _, _ => Raise TypeError
  end.

(** [v == "s"]: [False] for anything that is not that string. *)
Definition eq_str (v : value) (s : string) : bool :=
  match v with VStr s' => bool_decide (s' = s) | _ => false end.

#[export] Instance outcome_ret : MRet outcome := λ A a, Return a.

#[export] Instance outcome_bind : MBind outcome := λ A B f o,
  match o with
  | Return a => f a
  | Raise e => Raise e
  end.

(** [v[k]] for a string key: only a mapping can be subscripted by one. *)
Definition subscript (v : value) (k : string) : outcome value :=
  match v with
  | VDict d => getitem d k
  | _ => Raise TypeError
  end.

(** [idx > len(seq) - 1] *)
Definition gt_last (idx seq : value) : outcome bool :=
  l ← as_list seq;
  i ← as_int idx;
  mret (bool_decide (i > len l - 1)).

(** [result_dict[key][i]] *)
Definition eigen_at (result_dict : dict) (key : string) (i : Z) : outcome value :=
  seq ← getitem result_dict key;
  l ← as_list seq;
  py_index l i.

(** [len(result_dict[key]) - 1] *)
Definition last_idx (result_dict : dict) (key : string) : outcome Z :=
  seq ← getitem result_dict key;
  l ← as_list seq;
  mret (len l - 1).

(** ** The band gap block of [Cp2kAdvancedParser._create_output_nodes]

    The statements of the Python block in their order, so that the first
    failing one decides which exception is raised.  The dictionary the
    Python code updates in place is threaded through. *)
Definition compute_bandgap (result_dict : dict) : outcome dict :=
  if has_key "eigen_spin1_au" result_dict then
    dft_type ← getitem result_dict "dft_type";
    result_dict ←
      (if eq_str dft_type "RKS" then
         eigen1 ← getitem result_dict "eigen_spin1_au";
         mret (<["eigen_spin2_au" := eigen1]> result_dict)
       else mret result_dict);
    lumo_spin1_idx ← getitem result_dict "init_nel_spin1";
    lumo_spin2_idx ← getitem result_dict "init_nel_spin2";
    over1 ← (getitem result_dict "eigen_spin1_au" ≫= gt_last lumo_spin1_idx);
    over ←
      (if over1 : bool then mret true
       else getitem result_dict "eigen_spin2_au" ≫= gt_last lumo_spin2_idx);
    '(lumo_spin1_idx, lumo_spin2_idx) ←
      (if over : bool then
         i1 ← last_idx result_dict "eigen_spin1_au";
         i2 ← last_idx result_dict "eigen_spin2_au";
         mret (i1, i2)
       else
         i1 ← as_int lumo_spin1_idx;
         i2 ← as_int lumo_spin2_idx;
         mret (i1, i2));
    homo_spin1 ← eigen_at result_dict "eigen_spin1_au" (lumo_spin1_idx - 1);
    homo_spin2 ← eigen_at result_dict "eigen_spin2_au" (lumo_spin2_idx - 1);
    lumo_spin1 ← eigen_at result_dict "eigen_spin1_au" lumo_spin1_idx;
    lumo_spin2 ← eigen_at result_dict "eigen_spin2_au" lumo_spin2_idx;
    gap1 ← py_sub lumo_spin1 homo_spin1;
    gap2 ← py_sub lumo_spin2 homo_spin2;
    mret (<["bandgap_spin2_au" := gap2]> (<["bandgap_spin1_au" := gap1]> result_dict))
  else mret result_dict.

(** The k-point block of [Cp2kAdvancedParser._create_output_nodes]:
    builds the [BandsData] node, registers it and deletes the entry. *)
Definition promote_kpoints (lib : library) (result_dict : dict) : M dict :=
  if has_key "kpoint_data" result_dict then
    let bnds := BandsData_new in
    kpts ← lift (getitem result_dict "kpoint_data" ≫= λ kp, subscript kp "kpoints");
    bnds ← lift (set_kpoints lib kpts bnds);
    lbls ← lift (getitem result_dict "kpoint_data" ≫= λ kp, subscript kp "labels");
    bnds ← lift (set_labels lib lbls bnds);
    bs ← lift (getitem result_dict "kpoint_data" ≫= λ kp, subscript kp "bands");
    units ← lift (getitem result_dict "kpoint_data" ≫= λ kp, subscript kp "bands_unit");
    bnds ← lift (set_bands lib bs units bnds);
    _ ← emit (EOut "output_bands" (BandsData bnds));
    mret (delete "kpoint_data" result_dict)
  else mret result_dict.

(** ** The two parser classes *)

Class Cp2kParser := {
  sections : list string;
  _create_output_nodes : dict → M unit;
}.

Definition Cp2kBaseParser : Cp2kParser := {|
  sections := [];
  _create_output_nodes result_dict :=
    emit (EOut "output_parameters" (Dict result_dict));
|}.

Definition Cp2kAdvancedParser (lib : library) : Cp2kParser := {|
  sections := ["spin_density"; "natoms"; "scf_parameters"; "init_nel";
               "kpoint_data"; "motion_info"];
  _create_output_nodes result_dict :=
    result_dict ← lift (compute_bandgap result_dict);
    result_dict ← promote_kpoints lib result_dict;
    emit (EOut "output_parameters" (Dict result_dict));
|}.

(** ** The calculation a parser is attached to *)

(** What the parser reads of [self]: the retrieved folder, if there is
    one, as a map from the names of its objects to what
    [get_object_content] gives for each, its content or the exception
    the read raises ([IOError] and its subclasses, or a decoding error),
    the node attribute [output_filename] and the restart file name of
    the process class. *)
Record calc := {
  retrieved : option (gmap string (outcome string));
  output_filename : string;
  _DEFAULT_RESTART_FILE_NAME : string;
}.

(** [self.retrieved] *)
Definition get_retrieved (self : calc) : M (gmap string (outcome string)) :=
  match retrieved self with
  | Some folder => mret folder
  | None => raise NotExistent
  end.

(** [folder.list_object_names()] *)
Definition list_object_names (folder : gmap string (outcome string)) : M (gset string) :=
  _ ← emit EListObjectNames;
  mret (dom folder).

(** [folder.get_object_content(fname)] *)
Definition get_object_content (folder : gmap string (outcome string)) (fname : string)
  : M string :=
  _ ← emit (EGetObjectContent fname);
  match folder !! fname with
  | Some content => lift content
  | None => raise IOError
  end.

(** ** [Cp2kBaseParser]'s methods, inherited by [Cp2kAdvancedParser] *)

Section Parser.
(** [aiida_cp2k.utils.parser] is imported by the module; its two
    functions are parameters of the embedding, as are the checks of the
    libraries. *)
Variable parse_cp2k_output : string → list string → outcome dict.
Variable parse_cp2k_trajectory : string → outcome dict.
Variable lib : library.
Context (P : Cp2kParser).

Definition _parse_stdout (self : calc) : M (returned dict) :=
  let fname := output_filename self in
  folder ← get_retrieved self;
  names ← list_object_names folder;
  if bool_decide (fname ∉ names) then mret (Code ERROR_OUTPUT_STDOUT_MISSING)
  else
    content ← try_except (folder ← get_retrieved self;
                          output_string ← get_object_content folder fname;
                          mret (Some output_string))
                         is_IOError (mret None);
    match content with
    | None => mret (Code ERROR_OUTPUT_STDOUT_READ)
    | Some output_string =>
        _ ← emit (EParseOutput output_string sections);
        result_dict ← lift (parse_cp2k_output output_string sections);
        if has_key "geo_not_converged" result_dict then
          mret (Code ERROR_GEOMETRY_CONVERGENCE_NOT_REACHED)
        else if has_key "uks_needed" result_dict then
          mret (Code ERROR_UKS_NEEDED)
        else if has_key "aborted" result_dict then
          mret (Code ERROR_OUTPUT_CONTAINS_ABORT)
        else mret (Value result_dict)
    end.

Definition _parse_trajectory (self : calc) : M (returned node) :=
  let fname := _DEFAULT_RESTART_FILE_NAME self in
  folder ← get_retrieved self;
  names ← list_object_names folder;
  if bool_decide (fname ∉ names) then raise NotExistent
  else
    content ← try_except (folder ← get_retrieved self;
                          output_string ← get_object_content folder fname;
                          mret (Some output_string))
                         is_IOError (mret None);
    match content with
    | None => mret (Code ERROR_OUTPUT_STDOUT_READ)
    | Some output_string =>
        _ ← emit (EParseTrajectory output_string);
        kwargs ← lift (parse_cp2k_trajectory output_string);
        _ ← lift (validate_structure lib kwargs);
        mret (Value (StructureData kwargs))
    end.

Definition parse (self : calc) : M ExitCode :=
  no_folder ← try_except (_ ← get_retrieved self; mret false)
                         is_NotExistent (mret true);
  if no_folder : bool then mret ERROR_NO_RETRIEVED_FOLDER
  else
    returned ← _parse_stdout self;
    match returned with
    | Code c => mret c
    | Value result_dict =>
        _ ← _create_output_nodes result_dict;
        early ← try_except
                  (returned ← _parse_trajectory self;
                   match returned with
                   | Value structure =>
                       _ ← emit (EOut "output_structure" structure);
                       mret None
                   | Code c => mret (Some c)
                   end)
                  is_NotExistent (mret None);
        match early with
        | Some c => mret c
        | None => mret ExitCode_0
        end
    end.
End Parser.

(** ** Vocabulary of the statements *)

(** A status sentinel is present in the dictionary. *)
Definition sentinel_set (d : dict) : bool :=
  has_key "geo_not_converged" d || has_key "uks_needed" d || has_key "aborted" d.

(** A sequence of floats as a dictionary value. *)
Definition floats (xs : list float) : value := VList (VFloat <$> xs).

(** [l[i]] read off the list for an index in [-len(l), len(l))]: a
    negative index counts from the end. *)
Definition item (l : list value) (i : Z) : option value :=
  l !! Z.to_nat (i `mod` len l).

(** The same on a list of eigenvalues; [eig xs (-1)] is the last one. *)
Definition eig (xs : list float) (i : Z) : float :=
  default 0%float (xs !! Z.to_nat (i `mod` Z.of_nat (length xs))).

(** The number of eigenvalues of a channel, [len(...)]. *)
Definition count (xs : list float) : Z := Z.of_nat (length xs).

(** The two band gaps a run of the band gap block stored. *)
Definition gaps_of (o : outcome dict) : outcome (option value * option value) :=
  d ← o; mret (d !! "bandgap_spin1_au", d !! "bandgap_spin2_au").

(** What a caller can observe of [_parse_stdout] or [_parse_trajectory]
    when it does not get a payload: the exception raised or the exit
    code returned. *)
Inductive signal :=
| Raised (e : exn)
| Returned (c : ExitCode)
| Payload.

Definition signal_of {A} (r : outcome (returned A) * list event) : signal :=
  match r.1 with
  | Raise e => Raised e
  | Return (Code c) => Returned c
  | Return (Value _) => Payload
  end.

(** The object names whose content was asked for. *)
Definition reads (tr : list event) : list string :=
  omap (λ ev, match ev with EGetObjectContent f => Some f | _ => None end) tr.

(** A scanner that answers with a given dictionary, to run the parsers
    on a chosen scan result. *)
Definition scan_as (d : dict) : string → list string → outcome dict :=
  λ _ _, Return d.

(** A trajectory parser that answers with given keyword arguments. *)
Definition trajectory_as (kwargs : dict) : string → outcome dict :=
  λ _, Return kwargs.

(** ** Sample runs *)

Definition sample_eigen : list float :=
  [(-1.0)%float; (-0.5)%float; 0.2%float; 0.8%float].

(** The restricted run of the specification's band gap example. *)
Definition rks_run : dict :=
  <["dft_type" := VStr "RKS"]>
  (<["eigen_spin1_au" := floats sample_eigen]>
  (<["init_nel_spin1" := VInt 2]>
  (<["init_nel_spin2" := VInt 2]> ∅))).

(** A restricted dictionary whose two occupation counts differ. *)
Definition rks_uneven_run : dict := <["init_nel_spin2" := VInt 1]> rks_run.

(** An unrestricted run of a one-electron system: one occupied orbital in
    the first spin channel, none in the second. *)
Definition one_electron_run : dict :=
  <["dft_type" := VStr "UKS"]>
  (<["eigen_spin1_au" := floats [(-0.5)%float]]>
  (<["eigen_spin2_au" := floats []]>
  (<["init_nel_spin1" := VInt 1]>
  (<["init_nel_spin2" := VInt 0]> ∅)))).

(** An unrestricted run whose first channel lost an electron to the
    second: [init_nel_spin1] equals the number of eigenvalues parsed. *)
Definition crossed_run : dict :=
  <["dft_type" := VStr "UKS"]>
  (<["eigen_spin1_au" := floats [(-1.0)%float; (-0.5)%float; 0.25%float]]>
  (<["eigen_spin2_au" := floats [(-0.75)%float; 0.5%float]]>
  (<["init_nel_spin1" := VInt 3]>
  (<["init_nel_spin2" := VInt 1]> ∅)))).

(** An unrestricted run with no electron in the first spin channel. *)
Definition empty_occupation_run : dict := <["init_nel_spin1" := VInt 0]> crossed_run.

Definition sample_kpoint_data : dict :=
  <["kpoints" := VList [floats [0.0%float; 0.0%float; 0.0%float];
                        floats [0.5%float; 0.0%float; 0.0%float]]]>
  (<["labels" := VList [VList [VInt 0; VStr "GAMMA"]; VList [VInt 1; VStr "X"]]]>
  (<["bands" := VList [floats [(-3.5)%float; 1.25%float];
                       floats [(-3.0)%float; 1.5%float]]]>
  (<["bands_unit" := VStr "eV"]> ∅))).

(** A band structure run that finished normally. *)
Definition bands_run : dict :=
  <["energy" := VFloat (-17.25)%float]>
  (<["kpoint_data" := VDict sample_kpoint_data]> ∅).

(** The same scan result with the [aborted] sentinel set. *)
Definition aborted_bands_run : dict := <["aborted" := VBool true]> bands_run.

(** A scan result with every status sentinel set. *)
Definition all_sentinels_run : dict :=
  <["geo_not_converged" := VBool true]>
  (<["uks_needed" := VBool true]> aborted_bands_run).

(** Libraries that accept every argument. *)
Definition accepting : library := {|
  validate_kpoints _ _ := Return ();
  validate_labels _ _ := Return ();
  validate_bands _ _ _ := Return ();
  validate_structure _ := Return ();
|}.

(** Libraries that take the k-points and the labels and reject every
    band array and every structure with [ValueError]. *)
Definition rejecting : library := {|
  validate_kpoints _ _ := Return ();
  validate_labels _ _ := Return ();
  validate_bands _ _ _ := Raise ValueError;
  validate_structure _ := Raise ValueError;
|}.


(** A retrieved folder with a readable output file and no restart file. *)
Definition sample_calc : calc := {|
  retrieved := Some (<["aiida.out" := Return "CP2K"]> ∅);
  output_filename := "aiida.out";
  _DEFAULT_RESTART_FILE_NAME := "aiida-1.restart";
|}.

(** The output file is there but cannot be read. *)
Definition unreadable_stdout_calc : calc := {|
  retrieved := Some (<["aiida.out" := Raise IOError]> ∅);
  output_filename := "aiida.out";
  _DEFAULT_RESTART_FILE_NAME := "aiida-1.restart";
|}.

(** The restart file is there but cannot be read. *)
Definition unreadable_restart_calc : calc := {|
  retrieved := Some (<["aiida.out" := Return "CP2K"]>
                       (<["aiida-1.restart" := Raise IOError]> ∅));
  output_filename := "aiida.out";
  _DEFAULT_RESTART_FILE_NAME := "aiida-1.restart";
|}.

(** The output file is there and its bytes do not decode: the read
    raises [UnicodeDecodeError], a [ValueError]. *)
Definition undecodable_stdout_calc : calc := {|
  retrieved := Some (<["aiida.out" := Raise ValueError]> ∅);
  output_filename := "aiida.out";
  _DEFAULT_RESTART_FILE_NAME := "aiida-1.restart";
|}.

(** Both files are there and can be read. *)
Definition restart_calc : calc := {|
  retrieved := Some (<["aiida.out" := Return "CP2K"]>
                       (<["aiida-1.restart" := Return "RESTART"]> ∅));
  output_filename := "aiida.out";
  _DEFAULT_RESTART_FILE_NAME := "aiida-1.restart";
|}.

(** A scanner and a trajectory parser that fail with a given exception. *)
Definition scan_raising (e : exn) : string → list string → outcome dict :=
  λ _ _, Raise e.

Definition trajectory_raising (e : exn) : string → outcome dict :=
  λ _, Raise e.

(** Keyword arguments for [ase.Atoms]: a hydrogen molecule. *)
Definition sample_atoms : dict :=
  <["symbols" := VList [VStr "H"; VStr "H"]]>
  (<["positions" := VList [floats [0.0%float; 0.0%float; 0.0%float];
                           floats [0.0%float; 0.0%float; 0.75%float]]]> ∅).

(** A restricted run whose [dft_type] line was not found. *)
Definition untyped_run : dict := delete "dft_type" rks_run.


(** ** The output scanner's scalar extraction *)

Module Scanner.

(** A scalar section of the catalogue: the textual marker of its line
    and the field it fills. *)
Record scalar_rule := {
  marker : string;
  field : string;
}.

Definition energy : scalar_rule := {| marker := "ENERGY|"; field := "energy" |}.

Definition newline : string := String (Ascii.ascii_of_nat 10) EmptyString.

Fixpoint lines_go (cur s : string) : list string :=
  match s with
  | EmptyString =>
      match cur with EmptyString => [] | _ => [String.rev cur] end
  | String a s =>
      if Ascii.eqb a (Ascii.ascii_of_nat 10)
      then String.rev cur :: lines_go EmptyString s
      else lines_go (String a cur) s
  end%string.

(** The lines of a log. *)
Definition splitlines (log : string) : list string := lines_go EmptyString log.

(** The marker occurs in the line. *)
Definition matches (marker line : string) : bool :=
  bool_decide (is_Some (String.index 0 marker line)).

(** The last white-space separated token of a line. *)
Definition trailing_token (line : string) : option string :=
  last (String.words line).

Section Scalar.
(** The conversion of a numeric token, Python's [float]. *)
Variable float_of_token : string → option float.
Variable rule : scalar_rule.

(** Modelled from the spec: one line of the scanner's scalar
    extraction ([parse_cp2k_output] of [aiida_cp2k/utils/parser.py]
    is not among the sources).  A line that matches the marker has
    its trailing numeric token parsed and stored under the field,
    over whatever an earlier line stored; a token that is not
    numeric is a hard failure; any other line is skipped. *)
Definition scan_line (result : dict) (line : string) : outcome dict :=
  if matches (marker rule) line then
    match trailing_token line ≫= float_of_token with
    | Some x => Return (<[field rule := VFloat x]> result)
    | None => Raise ValueError
    end
  else Return result.

(** Modelled from the spec: the scanner's single linear pass over the
    lines of the log, for one scalar section of [parse_cp2k_output]. *)
Fixpoint scan_lines (lines : list string) (result : dict) : outcome dict :=
  match lines with
  | [] => Return result
  | line :: rest => result ← scan_line result line; scan_lines rest result
  end.

(** Modelled from the spec: the scalar extraction of
    [parse_cp2k_output] on a whole log, starting from an empty
    mapping. *)
Definition scan_scalar (log : string) : outcome dict :=
  scan_lines (splitlines log) ∅.
End Scalar.

(** Short decimal tokens, [-5.5] or [10]: the digits are accumulated
    and divided by the power of ten of the fraction, which is the
    nearest binary64 number as long as the digits stay below 2^53 and
    the fraction below 23 digits. Used to run the scanner on a sample
    log. *)
Fixpoint float_of_digit (n : nat) : float :=
  match n with
  | O => 0%float
  | S k => (float_of_digit k + 1)%float
  end.

Fixpoint decimal_go (s : string) (mant : float) (scale : option float)
    (seen : bool) : option float :=
  match s with
  | EmptyString =>
      if seen then Some (match scale with Some p => mant / p | None => mant end)%float
      else None
  | String a s =>
      match Ascii.is_nat a with
      | Some n =>
          decimal_go s (mant * 10 + float_of_digit n)%float
                     ((λ p, p * 10)%float <$> scale) true
      | None =>
          if Ascii.eqb a "."%char
          then match scale with
               | None => decimal_go s mant (Some 1%float) seen
               | Some _ => None
               end
          else None
      end
  end%string.

Definition decimal_token (tok : string) : option float :=
  match tok with
  | String "-"%char s => PrimFloat.opp <$> decimal_go s 0%float None false
  | String "+"%char s => decimal_go s 0%float None false
  | _ => decimal_go tok 0%float None false
  end%string.

(** A log that reports the energy twice, as a geometry optimisation
    does at every step. *)
Definition sample_log : string :=
  (" ENERGY| Total FORCE_EVAL ( QS ) energy (a.u.): 10" +:+ newline +:+
   " OPTIMIZATION STEP: 2" +:+ newline +:+
   " ENERGY| Total FORCE_EVAL ( QS ) energy (a.u.): -5.5" +:+ newline +:+
   " The number of warnings for this run is : 0" +:+ newline)%string.

End Scanner.

(** * Properties *)

(** ** Running the monad *)

Ltac unfold_M :=
  unfold mbind, M_bind, mret, M_ret, raise, emit, lift, try_except,
    get_retrieved, list_object_names, get_object_content in *.

(** Settles a membership hypothesis on an explicit list. *)
Ltac list_members Hin :=
  simpl in Hin;
  repeat (apply elem_of_cons in Hin as [Hin | Hin];
          [first [discriminate Hin | by subst] |]);
  by apply elem_of_nil in Hin.

Lemma absent_not_listed (folder : gmap string (outcome string)) fname :
  folder !! fname = None → bool_decide (fname ∉ dom folder) = true.
Proof. intros H. apply bool_decide_eq_true. by apply not_elem_of_dom. Qed.

Lemma present_listed (folder : gmap string (outcome string)) fname o :
  folder !! fname = Some o → bool_decide (fname ∉ dom folder) = false.
Proof.
  intros H. apply bool_decide_eq_false. intros Hn. apply Hn, elem_of_dom. eauto.
Qed.

Lemma has_key_true (d : dict) k : has_key k d = true ↔ is_Some (d !! k).
Proof. unfold has_key. apply bool_decide_eq_true. Qed.

Lemma has_key_false (d : dict) k : has_key k d = false ↔ d !! k = None.
Proof.
  unfold has_key. rewrite bool_decide_eq_false. symmetry. apply eq_None_not_Some.
Qed.

Lemma outputs_of_app tr1 tr2 : outputs_of (tr1 ++ tr2) = outputs_of tr1 ++ outputs_of tr2.
Proof. apply omap_app. Qed.

(** ** [_parse_stdout] and [_parse_trajectory] case by case *)

Section Parser_facts.
Variable parse_cp2k_output : string → list string → outcome dict.
Variable parse_cp2k_trajectory : string → outcome dict.
Variable lib : library.
Variable P : Cp2kParser.

Lemma parse_stdout_missing self folder tr :
  retrieved self = Some folder →
  folder !! output_filename self = None →
  _parse_stdout parse_cp2k_output P self tr
  = (Return (Code ERROR_OUTPUT_STDOUT_MISSING), tr ++ [EListObjectNames]).
Proof.
  intros Hr Hf. unfold _parse_stdout. unfold_M. rewrite Hr. simpl.
  by rewrite (absent_not_listed _ _ Hf).
Qed.

Lemma parse_stdout_unreadable self folder tr :
  retrieved self = Some folder →
  folder !! output_filename self = Some (Raise IOError) →
  _parse_stdout parse_cp2k_output P self tr
  = (Return (Code ERROR_OUTPUT_STDOUT_READ),
     tr ++ [EListObjectNames; EGetObjectContent (output_filename self)]).
Proof.
  intros Hr Hf. unfold _parse_stdout. unfold_M. rewrite Hr. simpl.
  rewrite (present_listed _ _ _ Hf), Hf. simpl.
  by rewrite <- app_assoc.
Qed.

Lemma parse_stdout_scanned self folder text d tr :
  retrieved self = Some folder →
  folder !! output_filename self = Some (Return text) →
  parse_cp2k_output text sections = Return d →
  _parse_stdout parse_cp2k_output P self tr
  = (Return (if has_key "geo_not_converged" d
             then Code ERROR_GEOMETRY_CONVERGENCE_NOT_REACHED
             else if has_key "uks_needed" d then Code ERROR_UKS_NEEDED
             else if has_key "aborted" d then Code ERROR_OUTPUT_CONTAINS_ABORT
             else Value d),
     tr ++ [EListObjectNames; EGetObjectContent (output_filename self);
            EParseOutput text sections]).
Proof.
  intros Hr Hf Hs. unfold _parse_stdout. unfold_M. rewrite Hr. simpl.
  rewrite (present_listed _ _ _ Hf), Hf. simpl. rewrite Hs.
  rewrite <- !app_assoc. simpl.
  by repeat case_match.
Qed.

Lemma parse_trajectory_missing self folder tr :
  retrieved self = Some folder →
  folder !! _DEFAULT_RESTART_FILE_NAME self = None →
  _parse_trajectory parse_cp2k_trajectory lib self tr
  = (Raise NotExistent, tr ++ [EListObjectNames]).
Proof.
  intros Hr Hf. unfold _parse_trajectory. unfold_M. rewrite Hr. simpl.
  by rewrite (absent_not_listed _ _ Hf).
Qed.

Lemma parse_trajectory_unreadable self folder tr :
  retrieved self = Some folder →
  folder !! _DEFAULT_RESTART_FILE_NAME self = Some (Raise IOError) →
  _parse_trajectory parse_cp2k_trajectory lib self tr
  = (Return (Code ERROR_OUTPUT_STDOUT_READ),
     tr ++ [EListObjectNames; EGetObjectContent (_DEFAULT_RESTART_FILE_NAME self)]).
Proof.
  intros Hr Hf. unfold _parse_trajectory. unfold_M. rewrite Hr. simpl.
  rewrite (present_listed _ _ _ Hf), Hf. simpl.
  by rewrite <- app_assoc.
Qed.

(** [parse] hands an exit code of [_parse_stdout] straight back. *)
Lemma parse_stdout_code self folder c tr tr' :
  retrieved self = Some folder →
  _parse_stdout parse_cp2k_output P self tr = (Return (Code c), tr') →
  parse parse_cp2k_output parse_cp2k_trajectory lib P self tr = (Return c, tr').
Proof.
  intros Hr Hs. unfold parse.
  unfold mbind at 1, M_bind at 1, try_except, get_retrieved.
  rewrite Hr. simpl.
  unfold mbind at 1, M_bind at 1. by rewrite Hs.
Qed.

(** [parse] when the scan result is a mapping, the output nodes are
    created and there is no restart file. *)
Lemma parse_without_restart self folder d tr tr1 tr2 :
  retrieved self = Some folder →
  folder !! _DEFAULT_RESTART_FILE_NAME self = None →
  _parse_stdout parse_cp2k_output P self tr = (Return (Value d), tr1) →
  _create_output_nodes d tr1 = (Return (), tr2) →
  parse parse_cp2k_output parse_cp2k_trajectory lib P self tr
  = (Return ExitCode_0, tr2 ++ [EListObjectNames]).
Proof.
  intros Hr Hf Hs Hc. unfold parse.
  unfold mbind at 1, M_bind at 1, try_except, get_retrieved.
  rewrite Hr. simpl.
  unfold mbind at 1, M_bind at 1. rewrite Hs.
  unfold mbind at 1, M_bind at 1. rewrite Hc.
  unfold mbind at 1, M_bind at 1.
  unfold mbind at 1, M_bind at 1.
  by rewrite (parse_trajectory_missing _ _ _ Hr Hf).
Qed.
End Parser_facts.

(** ** Outcome of the standard output stage *)

(** C1. Outcome precedence: once the output file has been read and
    scanned into a mapping, [_parse_stdout] reports geometry
    non-convergence if [geo_not_converged] is a key of the mapping;
    otherwise the need for a spin-unrestricted run if [uks_needed] is a
    key; otherwise an aborted run if [aborted] is a key; otherwise the
    mapping itself (the normal outcome).  One outcome, fixed by the
    first sentinel found in that order, whatever other sentinels are
    set. *)
Theorem outcome_precedence scan (P : Cp2kParser) self folder text d tr :
  retrieved self = Some folder →
  folder !! output_filename self = Some (Return text) →
  scan text sections = Return d →
  let reported := (_parse_stdout scan P self tr).1 in
  (is_Some (d !! "geo_not_converged") →
     reported = Return (Code ERROR_GEOMETRY_CONVERGENCE_NOT_REACHED)) ∧
  (d !! "geo_not_converged" = None → is_Some (d !! "uks_needed") →
     reported = Return (Code ERROR_UKS_NEEDED)) ∧
  (d !! "geo_not_converged" = None → d !! "uks_needed" = None →
     is_Some (d !! "aborted") →
     reported = Return (Code ERROR_OUTPUT_CONTAINS_ABORT)) ∧
  (d !! "geo_not_converged" = None → d !! "uks_needed" = None →
     d !! "aborted" = None →
     reported = Return (Value d)).
Proof.
  intros Hr Hf Hs reported. subst reported.
  rewrite (parse_stdout_scanned _ _ _ _ _ _ _ Hr Hf Hs). simpl.
  repeat split.
  - intros Hgeo. apply has_key_true in Hgeo. by rewrite Hgeo.
  - intros Hgeo Huks. apply has_key_false in Hgeo. apply has_key_true in Huks.
    by rewrite Hgeo, Huks.
  - intros Hgeo Huks Hab. apply has_key_false in Hgeo, Huks.
    apply has_key_true in Hab. by rewrite Hgeo, Huks, Hab.
  - intros Hgeo Huks Hab. apply has_key_false in Hgeo, Huks, Hab.
    by rewrite Hgeo, Huks, Hab.
Qed.

(** With all three sentinels set the run is reported as not converged. *)
Lemma outcome_precedence_all_sentinels :
  (_parse_stdout (scan_as all_sentinels_run) (Cp2kAdvancedParser accepting) sample_calc []).1
  = Return (Code ERROR_GEOMETRY_CONVERGENCE_NOT_REACHED).
Proof.
  refine (proj1 (outcome_precedence (scan_as all_sentinels_run) (Cp2kAdvancedParser accepting)
                   sample_calc (<["aiida.out" := Return "CP2K"]> ∅) "CP2K"
                   all_sentinels_run [] _ _ _) _).
  - reflexivity.
  - vm_compute. reflexivity.
  - reflexivity.
  - vm_compute. eauto.
Defined.

(** C9. No outputs on a failed standard output stage: when the output
    file is missing, or unreadable, or its scan result carries a status
    sentinel, [parse] returns the exit code of [_parse_stdout] having
    done nothing but what [_parse_stdout] did: no node is registered, the
    trajectory parser is not called and no object other than the output
    file is read. *)
Theorem no_outputs_on_stdout_failure scan traj lib (P : Cp2kParser) self folder :
  retrieved self = Some folder →
  (folder !! output_filename self = None
   ∨ folder !! output_filename self = Some (Raise IOError)
   ∨ ∃ text d, folder !! output_filename self = Some (Return text)
               ∧ scan text sections = Return d ∧ sentinel_set d = true) →
  ∃ c tr,
    _parse_stdout scan P self [] = (Return (Code c), tr)
    ∧ parse scan traj lib P self [] = (Return c, tr)
    ∧ c ≠ ExitCode_0
    ∧ outputs_of tr = []
    ∧ (∀ text, EParseTrajectory text ∉ tr)
    ∧ (∀ fname, fname ∈ reads tr → fname = output_filename self).
Proof.
  intros Hr [Hf | [Hf | (text & d & Hf & Hs & Hset)]].
  - pose proof (parse_stdout_missing scan P self folder [] Hr Hf) as Hstd.
    exists ERROR_OUTPUT_STDOUT_MISSING, [EListObjectNames].
    split; [exact Hstd |]. split; [by eapply parse_stdout_code |].
    split_and!; [done | done | | ].
    + intros t Hin. list_members Hin.
    + intros fname Hin. list_members Hin.
  - pose proof (parse_stdout_unreadable scan P self folder [] Hr Hf) as Hstd.
    eexists ERROR_OUTPUT_STDOUT_READ, _.
    split; [exact Hstd |]. split; [by eapply parse_stdout_code |].
    split_and!; [done | done | | ].
    + intros t Hin. list_members Hin.
    + intros fname Hin. list_members Hin.
  - pose proof (parse_stdout_scanned scan P self folder text d [] Hr Hf Hs) as Hstd.
    unfold sentinel_set in Hset.
    assert (∃ c, c ≠ ExitCode_0 ∧
                 (if has_key "geo_not_converged" d
                  then Code ERROR_GEOMETRY_CONVERGENCE_NOT_REACHED
                  else if has_key "uks_needed" d then Code ERROR_UKS_NEEDED
                  else if has_key "aborted" d then Code ERROR_OUTPUT_CONTAINS_ABORT
                  else Value d) = Code c) as (c & Hc & Heq).
    { revert Hset.
      destruct (has_key "geo_not_converged" d);
        [by exists ERROR_GEOMETRY_CONVERGENCE_NOT_REACHED |].
      destruct (has_key "uks_needed" d); [by exists ERROR_UKS_NEEDED |].
      destruct (has_key "aborted" d); [by exists ERROR_OUTPUT_CONTAINS_ABORT | done]. }
    rewrite Heq in Hstd.
    eexists c, _.
    split; [exact Hstd |]. split; [by eapply parse_stdout_code |].
    split_and!; [done | done | | ].
    + intros t Hin. list_members Hin.
    + intros fname Hin. list_members Hin.
Qed.

(** An aborted run: [parse] stops after the scan. *)
Lemma no_outputs_on_aborted_run :
  ∃ c tr,
    _parse_stdout (scan_as aborted_bands_run) (Cp2kAdvancedParser accepting) sample_calc []
    = (Return (Code c), tr)
    ∧ parse (scan_as aborted_bands_run) (trajectory_as ∅) accepting (Cp2kAdvancedParser accepting)
        sample_calc [] = (Return c, tr)
    ∧ c ≠ ExitCode_0
    ∧ outputs_of tr = []
    ∧ (∀ text, EParseTrajectory text ∉ tr)
    ∧ (∀ fname, fname ∈ reads tr → fname = output_filename sample_calc).
Proof.
  apply (no_outputs_on_stdout_failure (scan_as aborted_bands_run) (trajectory_as ∅) accepting
           (Cp2kAdvancedParser accepting) sample_calc (<["aiida.out" := Return "CP2K"]> ∅)).
  - reflexivity.
  - right. right. exists "CP2K", aborted_bands_run.
    split; [vm_compute; reflexivity |]. split; [reflexivity | vm_compute; reflexivity].
Defined.

(** ** Missing and unreadable files *)

(** C7. The four file conditions and what the caller sees of them: a
    missing output file is the exit code
    [ERROR_OUTPUT_STDOUT_MISSING], an unreadable output file the exit
    code [ERROR_OUTPUT_STDOUT_READ], a missing restart file the
    exception [NotExistent], and an unreadable restart file the exit
    code [ERROR_OUTPUT_STDOUT_READ] again.  The second and the fourth
    condition are therefore reported alike, by [_parse_stdout] and
    [_parse_trajectory] as well as by [parse]. *)
Theorem unreadable_restart_reported_as_stdout_read
    scan traj lib (P : Cp2kParser) self1 folder1 self2 folder2 d tr1 tr2 :
  retrieved self1 = Some folder1 →
  folder1 !! output_filename self1 = Some (Raise IOError) →
  retrieved self2 = Some folder2 →
  folder2 !! _DEFAULT_RESTART_FILE_NAME self2 = Some (Raise IOError) →
  _parse_stdout scan P self2 [] = (Return (Value d), tr1) →
  _create_output_nodes d tr1 = (Return (), tr2) →
  signal_of (_parse_stdout scan P self1 []) = Returned ERROR_OUTPUT_STDOUT_READ
  ∧ signal_of (_parse_trajectory traj lib self2 tr2) = Returned ERROR_OUTPUT_STDOUT_READ
  ∧ (parse scan traj lib P self1 []).1 = Return ERROR_OUTPUT_STDOUT_READ
  ∧ (parse scan traj lib P self2 []).1 = Return ERROR_OUTPUT_STDOUT_READ.
Proof.
  intros Hr1 Hf1 Hr2 Hf2 Hs Hc.
  pose proof (parse_stdout_unreadable scan P self1 folder1 [] Hr1 Hf1) as Hstd.
  pose proof (parse_trajectory_unreadable traj lib self2 folder2 tr2 Hr2 Hf2) as Htraj.
  split_and!.
  - unfold signal_of. by rewrite Hstd.
  - unfold signal_of. by rewrite Htraj.
  - by rewrite (parse_stdout_code scan traj lib P self1 folder1 _ _ _ Hr1 Hstd).
  - unfold parse.
    unfold mbind at 1, M_bind at 1, try_except, get_retrieved.
    rewrite Hr2. simpl.
    unfold mbind at 1, M_bind at 1. rewrite Hs.
    unfold mbind at 1, M_bind at 1. rewrite Hc.
    unfold mbind at 1, M_bind at 1.
    unfold mbind at 1, M_bind at 1.
    by rewrite Htraj.
Qed.

(** The two sample folders, one with an unreadable output file and one
    with an unreadable restart file, end in the same exit code. *)
Lemma unreadable_files_same_signal :
  signal_of (_parse_stdout (scan_as bands_run) (Cp2kAdvancedParser accepting)
               unreadable_stdout_calc [])
  = Returned ERROR_OUTPUT_STDOUT_READ
  ∧ signal_of (_parse_trajectory (trajectory_as ∅) accepting unreadable_restart_calc
                 [EListObjectNames; EGetObjectContent "aiida.out";
                  EParseOutput "CP2K" (@sections (Cp2kAdvancedParser accepting));
                  EOut "output_bands"
                    (BandsData (mk_bands (sample_kpoint_data !! "kpoints")
                                  (sample_kpoint_data !! "labels")
                                  (sample_kpoint_data !! "bands")
                                  (sample_kpoint_data !! "bands_unit")));
                  EOut "output_parameters" (Dict (delete "kpoint_data" bands_run))])
    = Returned ERROR_OUTPUT_STDOUT_READ
  ∧ (parse (scan_as bands_run) (trajectory_as ∅) accepting (Cp2kAdvancedParser accepting)
       unreadable_stdout_calc []).1 = Return ERROR_OUTPUT_STDOUT_READ
  ∧ (parse (scan_as bands_run) (trajectory_as ∅) accepting (Cp2kAdvancedParser accepting)
       unreadable_restart_calc []).1 = Return ERROR_OUTPUT_STDOUT_READ.
Proof.
  apply (unreadable_restart_reported_as_stdout_read
           (scan_as bands_run) (trajectory_as ∅) accepting (Cp2kAdvancedParser accepting)
           unreadable_stdout_calc (<["aiida.out" := Raise IOError]> ∅)
           unreadable_restart_calc
           (<["aiida.out" := Return "CP2K"]> (<["aiida-1.restart" := Raise IOError]> ∅))
           bands_run
           [EListObjectNames; EGetObjectContent "aiida.out";
            EParseOutput "CP2K" (@sections (Cp2kAdvancedParser accepting))]).
  - reflexivity.
  - vm_compute. reflexivity.
  - reflexivity.
  - vm_compute. reflexivity.
  - vm_compute. reflexivity.
  - vm_compute. reflexivity.
Defined.

(** C6. A missing restart file is not fatal: [_parse_trajectory] raises
    [NotExistent] after listing the folder, without reading or parsing
    anything, which is neither the exit code of an unreadable file nor a
    payload; [parse] catches it and returns [ExitCode(0)], and the nodes
    registered before are the outputs of the run. *)
Theorem missing_restart_is_not_fatal
    scan traj lib (P : Cp2kParser) self folder d tr1 tr2 :
  retrieved self = Some folder →
  folder !! _DEFAULT_RESTART_FILE_NAME self = None →
  _parse_stdout scan P self [] = (Return (Value d), tr1) →
  _create_output_nodes d tr1 = (Return (), tr2) →
  _parse_trajectory traj lib self tr2 = (Raise NotExistent, tr2 ++ [EListObjectNames])
  ∧ signal_of (_parse_trajectory traj lib self tr2) ≠ Returned ERROR_OUTPUT_STDOUT_READ
  ∧ ∃ tr, parse scan traj lib P self [] = (Return ExitCode_0, tr)
          ∧ outputs_of tr = outputs_of tr2.
Proof.
  intros Hr Hf Hs Hc.
  pose proof (parse_trajectory_missing traj lib self folder tr2 Hr Hf) as Htraj.
  split_and!.
  - exact Htraj.
  - unfold signal_of. by rewrite Htraj.
  - exists (tr2 ++ [EListObjectNames]). split.
    + by eapply parse_without_restart.
    + rewrite outputs_of_app. simpl. by rewrite app_nil_r.
Qed.

(** A band structure run without restart file: the two nodes of the
    standard output stage are the outputs and the parse succeeds. *)
Lemma missing_restart_sample :
  ∃ tr, parse (scan_as bands_run) (trajectory_as ∅) accepting (Cp2kAdvancedParser accepting) sample_calc []
        = (Return ExitCode_0, tr)
        ∧ outputs_of tr
          = [("output_bands",
              BandsData (mk_bands (sample_kpoint_data !! "kpoints")
                           (sample_kpoint_data !! "labels")
                           (sample_kpoint_data !! "bands")
                           (sample_kpoint_data !! "bands_unit")));
             ("output_parameters", Dict (delete "kpoint_data" bands_run))].
Proof.
  destruct (missing_restart_is_not_fatal
              (scan_as bands_run) (trajectory_as ∅) accepting (Cp2kAdvancedParser accepting)
              sample_calc (<["aiida.out" := Return "CP2K"]> ∅) bands_run
              [EListObjectNames; EGetObjectContent "aiida.out";
               EParseOutput "CP2K" (@sections (Cp2kAdvancedParser accepting))]
              [EListObjectNames; EGetObjectContent "aiida.out";
               EParseOutput "CP2K" (@sections (Cp2kAdvancedParser accepting));
               EOut "output_bands"
                 (BandsData (mk_bands (sample_kpoint_data !! "kpoints")
                               (sample_kpoint_data !! "labels")
                               (sample_kpoint_data !! "bands")
                               (sample_kpoint_data !! "bands_unit")));
               EOut "output_parameters" (Dict (delete "kpoint_data" bands_run))])
    as (_ & _ & tr & Hparse & Hout).
  - reflexivity.
  - vm_compute. reflexivity.
  - vm_compute. reflexivity.
  - vm_compute. reflexivity.
  - exists tr. split; [exact Hparse | exact Hout].
Defined.

(** ** The band gap block *)

Lemma len_pos (l : list value) : l ≠ [] → 0 < len l.
Proof. destruct l; [done |]. intros _. unfold len. simpl. lia. Qed.

Lemma py_index_item l i :
  - len l ≤ i < len l →
  ∃ v, item l i = Some v ∧ py_index l i = Return v.
Proof.
  intros Hi. unfold item, py_index.
  assert ((if i <? 0 then i + len l else i) = i `mod` len l) as ->.
  { destruct (Z.ltb_spec i 0).
    - apply Z.mod_unique with (q := -1); lia.
    - symmetry. apply Z.mod_small. lia. }
  assert (0 ≤ i `mod` len l < len l) as Hm by (apply Z.mod_pos_bound; lia).
  assert (is_Some (l !! Z.to_nat (i `mod` len l))) as [v Hv].
  { apply lookup_lt_is_Some. unfold len in *. lia. }
  exists v. rewrite Hv. split; [done |].
  destruct (Z.leb_spec 0 (i `mod` len l)); [| lia].
  destruct (Z.ltb_spec (i `mod` len l) (len l)); [done | lia].
Qed.

Lemma getitem_Some (d : dict) k v : d !! k = Some v → getitem d k = Return v.
Proof. intros H. unfold getitem. by rewrite H. Qed.

Lemma eigen_at_item (d : dict) k l i :
  d !! k = Some (VList l) → - len l ≤ i < len l →
  ∃ v, item l i = Some v ∧ eigen_at d k i = Return v.
Proof.
  intros Hk Hi. destruct (py_index_item l i Hi) as (v & Hv & Hp).
  exists v. split; [done |]. unfold eigen_at. rewrite (getitem_Some _ _ _ Hk). simpl.
  done.
Qed.

Lemma last_idx_list (d : dict) k l :
  d !! k = Some (VList l) → last_idx d k = Return (len l - 1).
Proof. intros Hk. unfold last_idx. by rewrite (getitem_Some _ _ _ Hk). Qed.

Lemma gt_last_list n l :
  gt_last (VInt n) (VList l) = Return (bool_decide (n > len l - 1)).
Proof. done. Qed.


Lemma has_key_Some (d : dict) k v : d !! k = Some v → has_key k d = true.
Proof. intros H. apply bool_decide_eq_true. eauto. Qed.

Lemma compute_bandgap_run (d : dict) t l1 l2 n1 n2 :
  d !! "eigen_spin1_au" = Some (VList l1) →
  d !! "dft_type" = Some t →
  (if eq_str t "RKS" then l2 = l1 else d !! "eigen_spin2_au" = Some (VList l2)) →
  d !! "init_nel_spin1" = Some (VInt n1) →
  d !! "init_nel_spin2" = Some (VInt n2) →
  l1 ≠ [] → l2 ≠ [] →
  let over := bool_decide (n1 > len l1 - 1 ∨ n2 > len l2 - 1) in
  let i1 := if over then len l1 - 1 else n1 in
  let i2 := if over then len l2 - 1 else n2 in
  (over = false → - len l1 < n1 ∧ - len l2 < n2) →
  ∃ homo1 homo2 lumo1 lumo2,
    item l1 (i1 - 1) = Some homo1 ∧ item l2 (i2 - 1) = Some homo2
    ∧ item l1 i1 = Some lumo1 ∧ item l2 i2 = Some lumo2
    ∧ compute_bandgap d
      = (gap1 ← py_sub lumo1 homo1;
         gap2 ← py_sub lumo2 homo2;
         mret (<["bandgap_spin2_au" := gap2]>
                 (<["bandgap_spin1_au" := gap1]>
                    (if eq_str t "RKS" then <["eigen_spin2_au" := VList l1]> d
                     else d)))).
Proof.
  intros He1 Ht He2 Hn1 Hn2 Hl1 Hl2 over i1 i2 Hrange.
  pose proof (len_pos l1 Hl1) as Hp1. pose proof (len_pos l2 Hl2) as Hp2.
  set (d' := if eq_str t "RKS" then <["eigen_spin2_au" := VList l1]> d else d).
  assert (d' !! "eigen_spin1_au" = Some (VList l1)
          ∧ d' !! "eigen_spin2_au" = Some (VList l2)
          ∧ d' !! "init_nel_spin1" = Some (VInt n1)
          ∧ d' !! "init_nel_spin2" = Some (VInt n2)) as (He1' & He2' & Hn1' & Hn2').
  { subst d'. destruct (eq_str t "RKS").
    - subst l2. rewrite lookup_insert_eq, !lookup_insert_ne by done. done.
    - done. }
  assert (- len l1 ≤ i1 - 1 < len l1 ∧ - len l1 ≤ i1 < len l1
          ∧ - len l2 ≤ i2 - 1 < len l2 ∧ - len l2 ≤ i2 < len l2) as (R1 & R2 & R3 & R4).
  { subst i1 i2. destruct over eqn:Hover.
    - lia.
    - destruct (Hrange eq_refl). subst over.
      apply bool_decide_eq_false in Hover. lia. }
  destruct (eigen_at_item d' _ l1 (i1 - 1) He1' R1) as (homo1 & Hh1 & Eh1).
  destruct (eigen_at_item d' _ l2 (i2 - 1) He2' R3) as (homo2 & Hh2 & Eh2).
  destruct (eigen_at_item d' _ l1 i1 He1' R2) as (lumo1 & Hu1 & Eu1).
  destruct (eigen_at_item d' _ l2 i2 He2' R4) as (lumo2 & Hu2 & Eu2).
  exists homo1, homo2, lumo1, lumo2. split_and!; try done.
  unfold compute_bandgap.
  rewrite (has_key_Some _ _ _ He1), (getitem_Some _ _ _ Ht). simpl.
  assert ((if eq_str t "RKS"
           then getitem d "eigen_spin1_au"
                ≫= λ eigen1, mret (<["eigen_spin2_au" := eigen1]> d)
           else mret d) = Return d') as ->.
  { subst d'. destruct (eq_str t "RKS"); [| done].
    by rewrite (getitem_Some _ _ _ He1). }
  simpl.
  rewrite (getitem_Some _ _ _ Hn1'), (getitem_Some _ _ _ Hn2'). simpl.
  rewrite (getitem_Some _ _ _ He1'), (getitem_Some _ _ _ He2'). simpl.
  rewrite !gt_last_list.
  assert ((if bool_decide (n1 > len l1 - 1) then mret true
           else Return (bool_decide (n2 > len l2 - 1))) = Return over) as ->.
  { subst over. unfold mret, outcome_ret.
    repeat case_bool_decide; try done; lia. }
  simpl.
  rewrite (last_idx_list _ _ _ He1'), (last_idx_list _ _ _ He2'). simpl.
  assert ((if over then mret (len l1 - 1, len l2 - 1) else mret (n1, n2))
          = Return (i1, i2)) as ->.
  { subst i1 i2. by destruct over. }
  simpl. rewrite Eh1. simpl. rewrite Eh2. simpl. rewrite Eu1. simpl. rewrite Eu2. simpl.
  done.
Qed.

Lemma item_floats xs i :
  xs ≠ [] → item (VFloat <$> xs) i = Some (VFloat (eig xs i)).
Proof.
  intros Hxs. unfold item, eig, len. rewrite length_fmap, list_lookup_fmap.
  assert (0 < Z.of_nat (length xs)) as Hp by (destruct xs; [done | simpl; lia]).
  assert (is_Some (xs !! Z.to_nat (i `mod` Z.of_nat (length xs)))) as [x Hx].
  { apply lookup_lt_is_Some.
    pose proof (Z.mod_pos_bound i _ Hp). lia. }
  by rewrite Hx.
Qed.

Lemma compute_bandgap_floats (d : dict) t x1 x2 n1 n2 :
  d !! "eigen_spin1_au" = Some (floats x1) →
  d !! "dft_type" = Some t →
  (if eq_str t "RKS" then x2 = x1 else d !! "eigen_spin2_au" = Some (floats x2)) →
  d !! "init_nel_spin1" = Some (VInt n1) →
  d !! "init_nel_spin2" = Some (VInt n2) →
  x1 ≠ [] → x2 ≠ [] →
  let over := bool_decide (n1 > count x1 - 1 ∨ n2 > count x2 - 1) in
  let i1 := if over then count x1 - 1 else n1 in
  let i2 := if over then count x2 - 1 else n2 in
  (over = false → - count x1 < n1 ∧ - count x2 < n2) →
  compute_bandgap d
  = Return (<["bandgap_spin2_au" := VFloat (eig x2 i2 - eig x2 (i2 - 1))]>
              (<["bandgap_spin1_au" := VFloat (eig x1 i1 - eig x1 (i1 - 1))]>
                 (if eq_str t "RKS" then <["eigen_spin2_au" := floats x1]> d
                  else d))).
Proof.
  intros He1 Ht He2 Hn1 Hn2 Hx1 Hx2 over i1 i2 Hrange.
  assert (len (VFloat <$> x1) = count x1) as L1 by (unfold len, count; by rewrite length_fmap).
  assert (len (VFloat <$> x2) = count x2) as L2 by (unfold len, count; by rewrite length_fmap).
  destruct (compute_bandgap_run d t (VFloat <$> x1) (VFloat <$> x2) n1 n2)
    as (h1 & h2 & u1 & u2 & Hh1 & Hh2 & Hu1 & Hu2 & ->); try done.
  - destruct (eq_str t "RKS"); [by subst | done].
  - by intros ?%fmap_nil_inv.
  - by intros ?%fmap_nil_inv.
  - rewrite L1, L2. exact Hrange.
  - rewrite L1, L2 in *. fold over in Hh1, Hh2, Hu1, Hu2. fold i1 in Hh1, Hu1. fold i2 in Hh2, Hu2.
    rewrite item_floats in Hh1, Hh2, Hu1, Hu2 by done.
    by simplify_eq.
Qed.

Lemma gaps_of_stored (d : dict) g1 g2 :
  gaps_of (Return (<["bandgap_spin2_au" := g2]> (<["bandgap_spin1_au" := g1]> d)))
  = Return (Some g1, Some g2).
Proof.
  unfold gaps_of. simpl. unfold mret, outcome_ret.
  by rewrite lookup_insert_eq, lookup_insert_ne, lookup_insert_eq.
Qed.

Lemma outcome_bind_inv {A B} (o : outcome A) (f : A → outcome B) b :
  o ≫= f = Return b → ∃ a, o = Return a ∧ f a = Return b.
Proof. destruct o as [e | a]; [done |]. intros H. by exists a. Qed.

Lemma compute_bandgap_frame (d d1 : dict) k :
  compute_bandgap d = Return d1 →
  k ≠ "eigen_spin2_au" → k ≠ "bandgap_spin1_au" → k ≠ "bandgap_spin2_au" →
  d1 !! k = d !! k.
Proof.
  intros H K1 K2 K3. unfold compute_bandgap in H.
  destruct (has_key "eigen_spin1_au" d); [| by injection H as <-].
  apply outcome_bind_inv in H as (t & _ & H).
  apply outcome_bind_inv in H as (d' & Hd' & H).
  assert (d' !! k = d !! k) as <-.
  { destruct (eq_str t "RKS"); [| by injection Hd' as <-].
    apply outcome_bind_inv in Hd' as (e & _ & Hd'). injection Hd' as <-.
    by rewrite lookup_insert_ne. }
  do 4 (apply outcome_bind_inv in H as (? & _ & H)).
  apply outcome_bind_inv in H as ([i1 i2] & _ & H).
  do 6 (apply outcome_bind_inv in H as (? & _ & H)).
  injection H as <-. by rewrite !lookup_insert_ne.
Qed.


Lemma promote_kpoints_absent lib (d : dict) tr :
  d !! "kpoint_data" = None → promote_kpoints lib d tr = (Return d, tr).
Proof.
  intros Hd. unfold promote_kpoints.
  by rewrite (proj2 (has_key_false _ _) Hd).
Qed.

Lemma promote_kpoints_inv lib (d d2 : dict) tr tr2 :
  promote_kpoints lib d tr = (Return d2, tr2) →
  d2 = delete "kpoint_data" d
  ∧ (has_key "kpoint_data" d = false ∧ tr2 = tr
     ∨ has_key "kpoint_data" d = true
       ∧ ∃ b, tr2 = tr ++ [EOut "output_bands" (BandsData b)]).
Proof.
  unfold promote_kpoints. destruct (has_key "kpoint_data" d) eqn:Hk.
  - unfold_M.
    repeat (match goal with
            | |- context [match ?o with Raise _ => _ | Return _ => _ end] =>
                destruct o; [done |]
            end; simpl).
    intros [= <- <-]. split; [done |]. right. eauto.
  - intros [= <- <-]. apply has_key_false in Hk.
    split; [by rewrite delete_id | by left].
Qed.

Lemma VFloat_inj x y : VFloat x = VFloat y → x = y.
Proof.
  intros H.
  exact (f_equal (λ v, match v with VFloat z => z | _ => x end) H).
Qed.

Lemma floats_inj (xs ys : list float) : VFloat <$> xs = VFloat <$> ys → xs = ys.
Proof.
  revert ys. induction xs as [| x xs IH]; intros [| y ys] H; try done.
  rewrite !fmap_cons in H.
  assert (VFloat x = VFloat y ∧ VFloat <$> xs = VFloat <$> ys) as [Hx Hxs].
  { split.
    - exact (f_equal (λ l, match l with v :: _ => v | [] => VFloat x end) H).
    - exact (f_equal (λ l, match l with _ :: l' => l' | [] => [] end) H). }
  f_equal; [by apply VFloat_inj | by apply IH].
Qed.

Lemma py_sub_no_IndexError a b : py_sub a b ≠ Raise IndexError.
Proof.
  unfold py_sub, float_of_int.
  destruct (as_number a) as [[m | x] |], (as_number b) as [[n | y] |];
    try done.
  - by destruct (binary_normalize prec emax m 0 false).
  - by destruct (binary_normalize prec emax n 0 false).
Qed.

Lemma count_pos xs : xs ≠ [] → 0 < count xs.
Proof. destruct xs; [done |]. intros _. unfold count. simpl. lia. Qed.

(** ** Band gaps *)

(** C3, as amended by the non-emptiness of both channels. Clamp rule:
    when the index taken from [init_nel_spin1] or from [init_nel_spin2]
    lies past the last index of its channel's eigenvalues, the band gap
    block uses for both channels the last index [len - 1] and stores
    [eigen[len - 1] - eigen[len - 2]] for each; with a single eigenvalue
    [len - 2] is [-1], the same element, and the gap is its difference
    with itself.  This covers [init_nel_spin1 = len(eigen_spin1_au)].
    No exception is raised. *)
Theorem clamp_rule (d : dict) t x1 x2 n1 n2 :
  d !! "eigen_spin1_au" = Some (floats x1) →
  d !! "dft_type" = Some t →
  (if eq_str t "RKS" then x2 = x1 else d !! "eigen_spin2_au" = Some (floats x2)) →
  d !! "init_nel_spin1" = Some (VInt n1) →
  d !! "init_nel_spin2" = Some (VInt n2) →
  x1 ≠ [] → x2 ≠ [] →
  n1 > count x1 - 1 ∨ n2 > count x2 - 1 →
  gaps_of (compute_bandgap d)
  = Return (Some (VFloat (eig x1 (count x1 - 1) - eig x1 (count x1 - 2))),
            Some (VFloat (eig x2 (count x2 - 1) - eig x2 (count x2 - 2)))).
Proof.
  intros He1 Ht He2 Hn1 Hn2 Hx1 Hx2 Hover.
  rewrite (compute_bandgap_floats d t x1 x2 n1 n2) by
    (try done; intros Hno; apply bool_decide_eq_false in Hno; done).
  rewrite gaps_of_stored, bool_decide_true by done.
  by replace (count x1 - 1 - 1) with (count x1 - 2) by lia;
     replace (count x2 - 1 - 1) with (count x2 - 2) by lia.
Qed.

(** The crossed run: three eigenvalues and [init_nel_spin1 = 3]. *)
Lemma clamp_rule_crossed_run :
  gaps_of (compute_bandgap crossed_run)
  = Return (Some (VFloat 0.75), Some (VFloat 1.25)).
Proof.
  rewrite (clamp_rule crossed_run (VStr "UKS")
             [(-1.0)%float; (-0.5)%float; 0.25%float]
             [(-0.75)%float; 0.5%float] 3 1);
    [ vm_compute; reflexivity
    | vm_compute; reflexivity
    | vm_compute; reflexivity
    | vm_compute; reflexivity
    | vm_compute; reflexivity
    | vm_compute; reflexivity
    | done
    | done
    | left; vm_compute; reflexivity ].
Defined.

(** The one-electron run has [init_nel_spin1 = len(eigen_spin1_au) = 1]
    and an empty second channel: the clamp sets the second index to
    [-1] and the look-up of [eigen_spin2_au[-2]] raises. *)
Lemma clamp_raises_on_empty_channel :
  getitem one_electron_run "eigen_spin1_au" = Return (floats [(-0.5)%float])
  ∧ getitem one_electron_run "init_nel_spin1" = Return (VInt 1)
  ∧ compute_bandgap one_electron_run = Raise IndexError.
Proof. vm_compute. done. Qed.

(** C4, as amended. Restricted run: for a mapping with
    [dft_type == "RKS"], a non-empty sequence of floats under
    [eigen_spin1_au], integers under [init_nel_spin1] and
    [init_nel_spin2], and LUMO indices the sequence can be read at (the
    clamp applies, or both are greater than [-len]), the block returns a
    mapping in which [eigen_spin2_au] is the sequence of
    [eigen_spin1_au], copied before the indices are read; each gap is
    taken on that one sequence at the channel's own index, so the two
    gaps are equal when [init_nel_spin1 = init_nel_spin2] or when the
    clamp replaces both indices, and need not be otherwise. *)
Theorem restricted_run_gaps (d : dict) x n1 n2 :
  d !! "dft_type" = Some (VStr "RKS") →
  d !! "eigen_spin1_au" = Some (floats x) →
  d !! "init_nel_spin1" = Some (VInt n1) →
  d !! "init_nel_spin2" = Some (VInt n2) →
  x ≠ [] →
  let over := bool_decide (n1 > count x - 1 ∨ n2 > count x - 1) in
  let i1 := if over then count x - 1 else n1 in
  let i2 := if over then count x - 1 else n2 in
  (over = false → - count x < n1 ∧ - count x < n2) →
  ∃ d', compute_bandgap d = Return d'
        ∧ d' !! "eigen_spin1_au" = Some (floats x)
        ∧ d' !! "eigen_spin2_au" = Some (floats x)
        ∧ d' !! "bandgap_spin1_au" = Some (VFloat (eig x i1 - eig x (i1 - 1)))
        ∧ d' !! "bandgap_spin2_au" = Some (VFloat (eig x i2 - eig x (i2 - 1)))
        ∧ (n1 = n2 ∨ over = true →
           d' !! "bandgap_spin1_au" = d' !! "bandgap_spin2_au").
Proof.
  intros Ht He1 Hn1 Hn2 Hx over i1 i2 Hrange.
  pose proof (count_pos x Hx) as Hc.
  assert (∀ g1 g2 : value,
            let d' := <["bandgap_spin2_au" := g2]>
                        (<["bandgap_spin1_au" := g1]>
                           (<["eigen_spin2_au" := floats x]> d)) in
            d' !! "eigen_spin1_au" = Some (floats x)
            ∧ d' !! "eigen_spin2_au" = Some (floats x)
            ∧ d' !! "bandgap_spin1_au" = Some g1
            ∧ d' !! "bandgap_spin2_au" = Some g2) as Hstored.
  { intros g1 g2 d'. subst d'. split_and!.
    - by rewrite !lookup_insert_ne by done.
    - do 2 rewrite lookup_insert_ne by done. apply lookup_insert_eq.
    - rewrite lookup_insert_ne by done. apply lookup_insert_eq.
    - apply lookup_insert_eq. }
  eexists. split.
  { by apply (compute_bandgap_floats d (VStr "RKS") x x n1 n2). }
  simpl. fold over. fold i1. fold i2.
  destruct (Hstored (VFloat (eig x i1 - eig x (i1 - 1)))
              (VFloat (eig x i2 - eig x (i2 - 1)))) as (S1 & S2 & S3 & S4).
  split_and!; [exact S1 | exact S2 | exact S3 | exact S4 |].
  intros Hsame. rewrite S3, S4. subst i1 i2.
  destruct Hsame as [-> | ->]; done.
Qed.

(** The restricted run of the specification: both gaps are
    [0.2 - (-0.5)], the binary64 number that [0.7] denotes. *)
Lemma restricted_run_gaps_sample :
  ∃ d', compute_bandgap rks_run = Return d'
        ∧ d' !! "eigen_spin2_au" = d' !! "eigen_spin1_au"
        ∧ d' !! "bandgap_spin1_au" = Some (VFloat 0.7)
        ∧ d' !! "bandgap_spin2_au" = Some (VFloat 0.7).
Proof.
  destruct (restricted_run_gaps rks_run sample_eigen 2 2)
    as (d' & Hrun & He1 & He2 & Hg1 & Hg2 & _);
    [ vm_compute; reflexivity | vm_compute; reflexivity
    | vm_compute; reflexivity | vm_compute; reflexivity
    | done | intros _; vm_compute; done | ].
  exists d'. split; [exact Hrun |]. split; [by rewrite He1, He2 |].
  split; [exact Hg1 | exact Hg2].
Defined.

(** The restricted dictionary with [init_nel_spin1 = 2] and
    [init_nel_spin2 = 1]: the gaps are [0.7] and [0.5]. *)
Lemma restricted_gaps_differ :
  getitem rks_uneven_run "dft_type" = Return (VStr "RKS")
  ∧ gaps_of (compute_bandgap rks_uneven_run)
    = Return (Some (VFloat 0.7), Some (VFloat 0.5))
  ∧ VFloat 0.7 ≠ VFloat 0.5.
Proof.
  split; [vm_compute; reflexivity |]. split; [vm_compute; reflexivity |].
  intros H.
  apply (f_equal (λ v, match v with
                       | VFloat x => PrimFloat.eqb x 0.7
                       | _ => false
                       end)) in H.
  vm_compute in H. discriminate H.
Qed.

(** C10. Band gap indexing is total: with non-empty eigenvalue
    sequences (the second one being the first in a restricted run) and
    non-negative integer [init_nel_spin1], [init_nel_spin2], the band gap
    block never raises [IndexError].  An index past the end is replaced
    by [len - 1]; an index of [0] makes the HOMO look-up read [eigen[-1]],
    the last eigenvalue, and the gap stored is
    [eigen[0] - eigen[len - 1]]. *)
Theorem bandgap_indexing_total (d : dict) t l1 l2 n1 n2 :
  d !! "eigen_spin1_au" = Some (VList l1) →
  d !! "dft_type" = Some t →
  (if eq_str t "RKS" then l2 = l1 else d !! "eigen_spin2_au" = Some (VList l2)) →
  d !! "init_nel_spin1" = Some (VInt n1) →
  d !! "init_nel_spin2" = Some (VInt n2) →
  l1 ≠ [] → l2 ≠ [] → 0 ≤ n1 → 0 ≤ n2 →
  compute_bandgap d ≠ Raise IndexError
  ∧ ∀ x1 x2, l1 = VFloat <$> x1 → l2 = VFloat <$> x2 →
      let over := bool_decide (n1 > count x1 - 1 ∨ n2 > count x2 - 1) in
      let i1 := if over then count x1 - 1 else n1 in
      let i2 := if over then count x2 - 1 else n2 in
      ∃ g1 g2,
        gaps_of (compute_bandgap d) = Return (Some (VFloat g1), Some (VFloat g2))
        ∧ g1 = (eig x1 i1 - eig x1 (i1 - 1))%float
        ∧ g2 = (eig x2 i2 - eig x2 (i2 - 1))%float
        ∧ (i1 = 0 → g1 = (eig x1 0 - eig x1 (count x1 - 1))%float)
        ∧ (i2 = 0 → g2 = (eig x2 0 - eig x2 (count x2 - 1))%float).
Proof.
  intros He1 Ht He2 Hn1 Hn2 Hl1 Hl2 Hp1 Hp2.
  pose proof (len_pos l1 Hl1) as Hc1. pose proof (len_pos l2 Hl2) as Hc2.
  split.
  - destruct (compute_bandgap_run d t l1 l2 n1 n2)
      as (h1 & h2 & u1 & u2 & _ & _ & _ & _ & ->); try done; [lia |].
    pose proof (py_sub_no_IndexError u1 h1) as N1.
    pose proof (py_sub_no_IndexError u2 h2) as N2.
    destruct (py_sub u1 h1) as [e1 | g1]; simpl; [congruence |].
    destruct (py_sub u2 h2) as [e2 | g2]; simpl; [congruence | done].
  - intros x1 x2 -> -> over i1 i2.
    assert (x1 ≠ []) as Hx1 by (intros ->; done).
    assert (x2 ≠ []) as Hx2 by (intros ->; done).
    pose proof (count_pos x1 Hx1) as Hk1. pose proof (count_pos x2 Hx2) as Hk2.
    eexists _, _. split.
    { rewrite (compute_bandgap_floats d t x1 x2 n1 n2); try done.
      - apply gaps_of_stored.
      - destruct (eq_str t "RKS"); [| done]. by apply floats_inj in He2.
      - lia. }
    fold over. fold i1. fold i2.
    split_and!; try done.
    + intros ->. simpl. f_equal. unfold eig, count in *.
      f_equal. f_equal. f_equal.
      rewrite (Z.mod_small (Z.of_nat (length x1) - 1)) by lia.
      symmetry. apply (Z.mod_unique _ _ (-1)); lia.
    + intros ->. simpl. f_equal. unfold eig, count in *.
      f_equal. f_equal. f_equal.
      rewrite (Z.mod_small (Z.of_nat (length x2) - 1)) by lia.
      symmetry. apply (Z.mod_unique _ _ (-1)); lia.
Qed.

(** The run with no electron in the first channel: the first gap is
    [eigen[0] - eigen[2]], that is [-1.0 - 0.25]. *)
Lemma bandgap_indexing_total_sample :
  compute_bandgap empty_occupation_run ≠ Raise IndexError
  ∧ gaps_of (compute_bandgap empty_occupation_run)
    = Return (Some (VFloat (-1.25)), Some (VFloat 1.25)).
Proof.
  destruct (bandgap_indexing_total empty_occupation_run (VStr "UKS")
              (VFloat <$> [(-1.0)%float; (-0.5)%float; 0.25%float])
              (VFloat <$> [(-0.75)%float; 0.5%float]) 0 1)
    as [Hno Hgap];
    [ vm_compute; reflexivity | vm_compute; reflexivity
    | vm_compute; reflexivity | vm_compute; reflexivity
    | vm_compute; reflexivity | done | done | done | done | ].
  split; [exact Hno |].
  destruct (Hgap _ _ eq_refl eq_refl) as (g1 & g2 & -> & -> & -> & _).
  vm_compute. reflexivity.
Defined.

(** ** Output nodes of the advanced parser *)




(** ** [parse] path by path *)

Section Parse_paths.
Variable parse_cp2k_output : string → list string → outcome dict.
Variable parse_cp2k_trajectory : string → outcome dict.
Variable lib : library.
Variable P : Cp2kParser.

Lemma parse_stdout_scan_raises self folder text e tr :
  retrieved self = Some folder →
  folder !! output_filename self = Some (Return text) →
  parse_cp2k_output text sections = Raise e →
  _parse_stdout parse_cp2k_output P self tr
  = (Raise e,
     tr ++ [EListObjectNames; EGetObjectContent (output_filename self);
            EParseOutput text sections]).
Proof.
  intros Hr Hf Hs. unfold _parse_stdout. unfold_M. rewrite Hr. simpl.
  rewrite (present_listed _ _ _ Hf), Hf. simpl. rewrite Hs.
  by rewrite <- !app_assoc.
Qed.

Lemma parse_stdout_read_raises self folder e tr :
  retrieved self = Some folder →
  folder !! output_filename self = Some (Raise e) →
  _parse_stdout parse_cp2k_output P self tr
  = (if is_IOError e then Return (Code ERROR_OUTPUT_STDOUT_READ) else Raise e,
     tr ++ [EListObjectNames; EGetObjectContent (output_filename self)]).
Proof.
  intros Hr Hf. unfold _parse_stdout. unfold_M. rewrite Hr. simpl.
  rewrite (present_listed _ _ _ Hf), Hf. simpl.
  rewrite <- app_assoc. by destruct (is_IOError e).
Qed.

Lemma parse_trajectory_read_raises self folder e tr :
  retrieved self = Some folder →
  folder !! _DEFAULT_RESTART_FILE_NAME self = Some (Raise e) →
  _parse_trajectory parse_cp2k_trajectory lib self tr
  = (if is_IOError e then Return (Code ERROR_OUTPUT_STDOUT_READ) else Raise e,
     tr ++ [EListObjectNames; EGetObjectContent (_DEFAULT_RESTART_FILE_NAME self)]).
Proof.
  intros Hr Hf. unfold _parse_trajectory. unfold_M. rewrite Hr. simpl.
  rewrite (present_listed _ _ _ Hf), Hf. simpl.
  rewrite <- app_assoc. by destruct (is_IOError e).
Qed.

Lemma parse_trajectory_parsed self folder text tr :
  retrieved self = Some folder →
  folder !! _DEFAULT_RESTART_FILE_NAME self = Some (Return text) →
  _parse_trajectory parse_cp2k_trajectory lib self tr
  = (match parse_cp2k_trajectory text with
     | Return kwargs =>
         match validate_structure lib kwargs with
         | Return _ => Return (Value (StructureData kwargs))
         | Raise e => Raise e
         end
     | Raise e => Raise e
     end,
     tr ++ [EListObjectNames; EGetObjectContent (_DEFAULT_RESTART_FILE_NAME self);
            EParseTrajectory text]).
Proof.
  intros Hr Hf. unfold _parse_trajectory. unfold_M. rewrite Hr. simpl.
  rewrite (present_listed _ _ _ Hf), Hf. simpl.
  rewrite <- !app_assoc. simpl.
  destruct (parse_cp2k_trajectory text) as [e | kwargs]; [done |].
  by destruct (validate_structure lib kwargs).
Qed.

Lemma parse_no_folder self tr :
  retrieved self = None →
  parse parse_cp2k_output parse_cp2k_trajectory lib P self tr
  = (Return ERROR_NO_RETRIEVED_FOLDER, tr).
Proof.
  intros Hr. unfold parse.
  unfold mbind at 1, M_bind at 1, try_except, get_retrieved.
  by rewrite Hr.
Qed.

Lemma parse_stdout_raised self folder e tr tr' :
  retrieved self = Some folder →
  _parse_stdout parse_cp2k_output P self tr = (Raise e, tr') →
  parse parse_cp2k_output parse_cp2k_trajectory lib P self tr = (Raise e, tr').
Proof.
  intros Hr Hs. unfold parse.
  unfold mbind at 1, M_bind at 1, try_except, get_retrieved.
  rewrite Hr. simpl.
  unfold mbind at 1, M_bind at 1. by rewrite Hs.
Qed.

Lemma parse_nodes_raised self folder d e tr tr1 tr2 :
  retrieved self = Some folder →
  _parse_stdout parse_cp2k_output P self tr = (Return (Value d), tr1) →
  _create_output_nodes d tr1 = (Raise e, tr2) →
  parse parse_cp2k_output parse_cp2k_trajectory lib P self tr = (Raise e, tr2).
Proof.
  intros Hr Hs Hc. unfold parse.
  unfold mbind at 1, M_bind at 1, try_except, get_retrieved.
  rewrite Hr. simpl.
  unfold mbind at 1, M_bind at 1. rewrite Hs.
  unfold mbind at 1, M_bind at 1. by rewrite Hc.
Qed.

(** [parse] once the nodes of the standard output stage are registered:
    what the restart file decides. *)
Lemma parse_after_nodes self folder d tr tr1 tr2 :
  retrieved self = Some folder →
  _parse_stdout parse_cp2k_output P self tr = (Return (Value d), tr1) →
  _create_output_nodes d tr1 = (Return (), tr2) →
  let fname := _DEFAULT_RESTART_FILE_NAME self in
  parse parse_cp2k_output parse_cp2k_trajectory lib P self tr
  = match folder !! fname with
    | None => (Return ExitCode_0, tr2 ++ [EListObjectNames])
    | Some (Raise e) =>
        (if is_IOError e then Return ERROR_OUTPUT_STDOUT_READ
         else if is_NotExistent e then Return ExitCode_0 else Raise e,
         tr2 ++ [EListObjectNames; EGetObjectContent fname])
    | Some (Return text) =>
        match parse_cp2k_trajectory text with
        | Return kwargs =>
            match validate_structure lib kwargs with
            | Return _ =>
                (Return ExitCode_0,
                 tr2 ++ [EListObjectNames; EGetObjectContent fname;
                         EParseTrajectory text;
                         EOut "output_structure" (StructureData kwargs)])
            | Raise e =>
                (if is_NotExistent e then Return ExitCode_0 else Raise e,
                 tr2 ++ [EListObjectNames; EGetObjectContent fname;
                         EParseTrajectory text])
            end
        | Raise e =>
            (if is_NotExistent e then Return ExitCode_0 else Raise e,
             tr2 ++ [EListObjectNames; EGetObjectContent fname;
                     EParseTrajectory text])
        end
    end.
Proof.
  intros Hr Hs Hc fname. subst fname.
  destruct (folder !! _DEFAULT_RESTART_FILE_NAME self) as [[e | text] |] eqn:Hf.
  - unfold parse.
    unfold mbind at 1, M_bind at 1, try_except, get_retrieved.
    rewrite Hr. simpl.
    unfold mbind at 1, M_bind at 1. rewrite Hs.
    unfold mbind at 1, M_bind at 1. rewrite Hc.
    unfold mbind at 1, M_bind at 1.
    unfold mbind at 1, M_bind at 1.
    rewrite (parse_trajectory_read_raises _ _ _ _ Hr Hf).
    by destruct e.
  - unfold parse.
    unfold mbind at 1, M_bind at 1, try_except, get_retrieved.
    rewrite Hr. simpl.
    unfold mbind at 1, M_bind at 1. rewrite Hs.
    unfold mbind at 1, M_bind at 1. rewrite Hc.
    unfold mbind at 1, M_bind at 1.
    unfold mbind at 1, M_bind at 1.
    rewrite (parse_trajectory_parsed _ _ _ _ Hr Hf).
    destruct (parse_cp2k_trajectory text) as [e | kwargs].
    + by destruct e.
    + destruct (validate_structure lib kwargs) as [e | []].
      * by destruct e.
      * unfold_M. by rewrite <- !app_assoc.
  - by eapply parse_without_restart.
Qed.

(** What [_parse_stdout] can come back with when there is a folder. *)
Lemma parse_stdout_cases self folder tr :
  retrieved self = Some folder →
  ∃ tr',
    (∃ e, _parse_stdout parse_cp2k_output P self tr = (Raise e, tr')
          ∧ outputs_of tr' = outputs_of tr)
    ∨ (∃ c, _parse_stdout parse_cp2k_output P self tr = (Return (Code c), tr')
            ∧ c ≠ ExitCode_0 ∧ c ≠ ERROR_NO_RETRIEVED_FOLDER
            ∧ outputs_of tr' = outputs_of tr)
    ∨ (∃ d, _parse_stdout parse_cp2k_output P self tr = (Return (Value d), tr')
            ∧ sentinel_set d = false
            ∧ outputs_of tr' = outputs_of tr).
Proof.
  intros Hr.
  destruct (folder !! output_filename self) as [[e | text] |] eqn:Hf.
  - pose proof (parse_stdout_read_raises self folder e tr Hr Hf) as Hstd.
    assert (outputs_of
              (tr ++ [EListObjectNames; EGetObjectContent (output_filename self)])
            = outputs_of tr) as Hout.
    { rewrite outputs_of_app. simpl. by rewrite app_nil_r. }
    eexists. destruct (is_IOError e).
    + right. left. eexists. split; [exact Hstd |]. by split_and!.
    + left. exists e. by split.
  - destruct (parse_cp2k_output text sections) as [e | d] eqn:Hs.
    + eexists. left. exists e. split; [by eapply parse_stdout_scan_raises |].
      rewrite outputs_of_app. simpl. by rewrite app_nil_r.
    + pose proof (parse_stdout_scanned parse_cp2k_output P self folder text d tr
                    Hr Hf Hs) as Hstd.
      assert (outputs_of
                (tr ++ [EListObjectNames; EGetObjectContent (output_filename self);
                        EParseOutput text sections]) = outputs_of tr) as Hout.
      { rewrite outputs_of_app. simpl. by rewrite app_nil_r. }
      eexists. right. unfold sentinel_set. revert Hstd.
      destruct (has_key "geo_not_converged" d) eqn:Hgeo;
        [intros Hstd; left; eexists; split; [exact Hstd |];
         split_and!; [done | done | exact Hout] |].
      destruct (has_key "uks_needed" d) eqn:Huks;
        [intros Hstd; left; eexists; split; [exact Hstd |];
         split_and!; [done | done | exact Hout] |].
      destruct (has_key "aborted" d) eqn:Hab;
        [intros Hstd; left; eexists; split; [exact Hstd |];
         split_and!; [done | done | exact Hout] |].
      intros Hstd. right. eexists. split; [exact Hstd |].
      split; [by rewrite Hgeo, Huks, Hab | exact Hout].
  - eexists. right. left. eexists.
    split; [by eapply parse_stdout_missing |].
    split_and!; [done | done |].
    rewrite outputs_of_app. simpl. by rewrite app_nil_r.
Qed.
(** [parse] as a decision table over the folder, the scan result, the
    node creation and the restart file. *)
Lemma parse_table self tr :
  parse parse_cp2k_output parse_cp2k_trajectory lib P self tr
  = match retrieved self with
    | None => (Return ERROR_NO_RETRIEVED_FOLDER, tr)
    | Some folder =>
        match folder !! output_filename self with
        | None => (Return ERROR_OUTPUT_STDOUT_MISSING, tr ++ [EListObjectNames])
        | Some (Raise e) =>
            (if is_IOError e then Return ERROR_OUTPUT_STDOUT_READ else Raise e,
             tr ++ [EListObjectNames; EGetObjectContent (output_filename self)])
        | Some (Return text) =>
            let tr1 := tr ++ [EListObjectNames;
                              EGetObjectContent (output_filename self);
                              EParseOutput text sections] in
            match parse_cp2k_output text sections with
            | Raise e => (Raise e, tr1)
            | Return d =>
                if has_key "geo_not_converged" d
                then (Return ERROR_GEOMETRY_CONVERGENCE_NOT_REACHED, tr1)
                else if has_key "uks_needed" d then (Return ERROR_UKS_NEEDED, tr1)
                else if has_key "aborted" d
                then (Return ERROR_OUTPUT_CONTAINS_ABORT, tr1)
                else
                  match _create_output_nodes d tr1 with
                  | (Raise e, tr2) => (Raise e, tr2)
                  | (Return _, tr2) =>
                      let fname := _DEFAULT_RESTART_FILE_NAME self in
                      match folder !! fname with
                      | None => (Return ExitCode_0, tr2 ++ [EListObjectNames])
                      | Some (Raise e) =>
                          (if is_IOError e then Return ERROR_OUTPUT_STDOUT_READ
                           else if is_NotExistent e then Return ExitCode_0
                           else Raise e,
                           tr2 ++ [EListObjectNames; EGetObjectContent fname])
                      | Some (Return restart) =>
                          match parse_cp2k_trajectory restart with
                          | Return kwargs =>
                              match validate_structure lib kwargs with
                              | Return _ =>
                                  (Return ExitCode_0,
                                   tr2 ++ [EListObjectNames;
                                           EGetObjectContent fname;
                                           EParseTrajectory restart;
                                           EOut "output_structure"
                                             (StructureData kwargs)])
                              | Raise e =>
                                  (if is_NotExistent e then Return ExitCode_0
                                   else Raise e,
                                   tr2 ++ [EListObjectNames;
                                           EGetObjectContent fname;
                                           EParseTrajectory restart])
                              end
                          | Raise e =>
                              (if is_NotExistent e then Return ExitCode_0
                               else Raise e,
                               tr2 ++ [EListObjectNames; EGetObjectContent fname;
                                       EParseTrajectory restart])
                          end
                      end
                  end
            end
        end
    end.
Proof.
  destruct (retrieved self) as [folder |] eqn:Hr; [| by apply parse_no_folder].
  destruct (folder !! output_filename self) as [[e | text] |] eqn:Hf.
  - pose proof (parse_stdout_read_raises self folder e tr Hr Hf) as Hstd.
    destruct (is_IOError e).
    + by eapply parse_stdout_code.
    + by eapply parse_stdout_raised.
  - simpl.
    destruct (parse_cp2k_output text sections) as [e | d] eqn:Hs.
    + eapply parse_stdout_raised; [done |]. by eapply parse_stdout_scan_raises.
    + pose proof (parse_stdout_scanned parse_cp2k_output P self folder text d tr
                    Hr Hf Hs) as Hstd.
      revert Hstd.
      destruct (has_key "geo_not_converged" d);
        [intros Hstd; by eapply parse_stdout_code |].
      destruct (has_key "uks_needed" d);
        [intros Hstd; by eapply parse_stdout_code |].
      destruct (has_key "aborted" d);
        [intros Hstd; by eapply parse_stdout_code |].
      intros Hstd.
      destruct (_create_output_nodes d _) as [[e | []] tr2] eqn:Hc.
      * by eapply parse_nodes_raised.
      * by rewrite (parse_after_nodes self folder d tr _ tr2 Hr Hstd Hc).
  - eapply parse_stdout_code; [done |]. by eapply parse_stdout_missing.
Qed.
End Parse_paths.

(** ** Node creation of the advanced parser, case by case *)

Lemma promote_kpoints_raised lib (d : dict) tr e tr' :
  promote_kpoints lib d tr = (Raise e, tr') → tr' = tr.
Proof.
  unfold promote_kpoints. destruct (has_key "kpoint_data" d); [| done].
  unfold_M.
  repeat (match goal with
          | |- context [match ?o with Raise _ => _ | Return _ => _ end] =>
              destruct o; [by intros [= _ <-] |]
          end; simpl).
  done.
Qed.

Lemma advanced_nodes_cases lib (d : dict) tr :
  match @_create_output_nodes (Cp2kAdvancedParser lib) d tr with
  | (Raise e, tr') =>
      tr' = tr
      ∧ (compute_bandgap d = Raise e
         ∨ ∃ d1, compute_bandgap d = Return d1
                 ∧ promote_kpoints lib d1 tr = (Raise e, tr))
  | (Return _, tr') =>
      ∃ d1 d2 tr2, compute_bandgap d = Return d1
                   ∧ promote_kpoints lib d1 tr = (Return d2, tr2)
                   ∧ tr' = tr2 ++ [EOut "output_parameters" (Dict d2)]
  end.
Proof.
  simpl. unfold mbind at 1, M_bind at 1, lift.
  destruct (compute_bandgap d) as [e | d1]; [by split; [| left] |].
  unfold mbind at 1, M_bind at 1.
  destruct (promote_kpoints lib d1 tr) as [[e | d2] tr2] eqn:Hprom.
  - pose proof (promote_kpoints_raised _ _ _ _ _ Hprom) as ->.
    split; [done |]. right. by exists d1.
  - unfold emit. by exists d1, d2, tr2.
Qed.

Lemma sentinels_kept (d d1 : dict) :
  compute_bandgap d = Return d1 →
  sentinel_set (delete "kpoint_data" d1) = sentinel_set d.
Proof.
  intros Hgap. unfold sentinel_set, has_key.
  rewrite !lookup_delete_ne by done.
  by rewrite !(compute_bandgap_frame d d1 _ Hgap).
Qed.

Lemma registered (tr : list event) l n : EOut l n ∈ tr → (l, n) ∈ outputs_of tr.
Proof.
  intros Hin. unfold outputs_of. apply list_elem_of_omap.
  exists (EOut l n). by split.
Qed.

(** The node creation of either class, when it returns, has registered
    the mapping it was given or the mapping it made of it. *)
Lemma nodes_registered lib (P : Cp2kParser) (d : dict) tr1 tr2 :
  P = Cp2kBaseParser ∨ P = Cp2kAdvancedParser lib →
  _create_output_nodes d tr1 = (Return (), tr2) →
  ∃ d', sentinel_set d' = sentinel_set d
        ∧ EOut "output_parameters" (Dict d') ∈ tr2.
Proof.
  intros [-> | ->] Hc.
  - exists d. split; [done |]. simpl in Hc. unfold emit in Hc.
    injection Hc as <-. apply elem_of_app. right. by apply list_elem_of_singleton.
  - pose proof (advanced_nodes_cases lib d tr1) as Hcases. rewrite Hc in Hcases.
    destruct Hcases as (d1 & d2 & tr & Hgap & Hprom & ->).
    destruct (promote_kpoints_inv lib d1 d2 tr1 tr Hprom) as [-> _].
    exists (delete "kpoint_data" d1). split; [by apply sentinels_kept |].
    apply elem_of_app. right. by apply list_elem_of_singleton.
Qed.

(** Takes the decision table of [parse] apart, one test at a time. *)
Ltac parse_case :=
  match goal with
  | H : context [match ?x with (_, _) => _ end] |- _ =>
      destruct x as [[? | []] ?] eqn:?
  | |- context [match ?x with (_, _) => _ end] =>
      destruct x as [[? | []] ?] eqn:?
  | _ => case_match
  end; simplify_eq/=.

(** Settles equivalences between a computed exit code and the
    conditions on the folder and the scan result. *)
Ltac settle_codes :=
  split_and!;
  (split;
   [ intros ?; simplify_eq/=; eauto 10
   | intros ?; repeat match goal with
                      | H : ∃ _, _ |- _ => destruct H
                      | H : _ ∧ _ |- _ => destruct H
                      end; simplify_eq/=; congruence ]).

(** ** Nodes and outcome *)




(** ** Scalar extraction of the scanner *)

Section Scalar_facts.
Variable float_of_token : string → option float.
Variable rule : Scanner.scalar_rule.

Lemma scan_lines_app before after (result : dict) :
  Scanner.scan_lines float_of_token rule (before ++ after) result
  = Scanner.scan_lines float_of_token rule before result
    ≫= Scanner.scan_lines float_of_token rule after.
Proof.
  revert result. induction before as [| line before IH]; intros result; [done |].
  simpl. destruct (Scanner.scan_line float_of_token rule result line); [done |].
  simpl. apply IH.
Qed.

Lemma scan_lines_no_marker lines (result : dict) :
  Forall (λ l, Scanner.matches (Scanner.marker rule) l = false) lines →
  Scanner.scan_lines float_of_token rule lines result = Return result.
Proof.
  intros Hno. revert result.
  induction Hno as [| line lines Hline _ IH]; intros result; [done |].
  simpl. unfold Scanner.scan_line. rewrite Hline. simpl. apply IH.
Qed.
End Scalar_facts.

(** C8. Scalar last occurrence wins: when the lines of a log are
    [before], then a line with the marker of a scalar section whose
    trailing token parses to [x], then lines without the marker, the
    scan maps the section's field to [x], whatever the occurrences of
    the marker in [before] stored. *)
Theorem scalar_last_occurrence_wins
    float_of_token rule log before line after (seen : dict) x :
  Scanner.splitlines log = before ++ line :: after →
  Scanner.scan_lines float_of_token rule before ∅ = Return seen →
  Scanner.matches (Scanner.marker rule) line = true →
  Scanner.trailing_token line ≫= float_of_token = Some x →
  Forall (λ l, Scanner.matches (Scanner.marker rule) l = false) after →
  Scanner.scan_scalar float_of_token rule log
  = Return (<[Scanner.field rule := VFloat x]> seen)
  ∧ <[Scanner.field rule := VFloat x]> seen !! Scanner.field rule = Some (VFloat x).
Proof.
  intros Hlines Hbefore Hline Htoken Hafter. split; [| apply lookup_insert_eq].
  unfold Scanner.scan_scalar. rewrite Hlines, scan_lines_app, Hbefore. simpl.
  unfold Scanner.scan_line. rewrite Hline, Htoken. simpl.
  by apply scan_lines_no_marker.
Qed.

(** The sample log reports the energy as [10] and later as [-5.5]. *)
Lemma scalar_last_occurrence_sample :
  Scanner.scan_scalar Scanner.decimal_token Scanner.energy Scanner.sample_log
  = Return (<["energy" := VFloat (-5.5)]> (<["energy" := VFloat 10]> ∅))
  ∧ <["energy" := VFloat (-5.5)]> (<["energy" := VFloat 10]> (∅ : dict)) !! "energy"
    = Some (VFloat (-5.5)).
Proof.
  apply (scalar_last_occurrence_wins Scanner.decimal_token Scanner.energy
           Scanner.sample_log
           [" ENERGY| Total FORCE_EVAL ( QS ) energy (a.u.): 10";
            " OPTIMIZATION STEP: 2"]
           " ENERGY| Total FORCE_EVAL ( QS ) energy (a.u.): -5.5"
           [" The number of warnings for this run is : 0"]
           (<["energy" := VFloat 10]> ∅) (-5.5)%float).
  - vm_compute. reflexivity.
  - vm_compute. reflexivity.
  - vm_compute. reflexivity.
  - vm_compute. reflexivity.
  - repeat constructor.
Defined.

(** * Further properties of the parser classes *)

(** ** Exit codes and what they tell *)

(** X1. [parse] returns [ERROR_NO_RETRIEVED_FOLDER] exactly when the
    calculation has no retrieved folder, and then without any call on
    the outside world. *)
Theorem no_retrieved_folder_exactly scan traj lib (P : Cp2kParser) self tr :
  ((parse scan traj lib P self tr).1 = Return ERROR_NO_RETRIEVED_FOLDER
   ↔ retrieved self = None)
  ∧ (retrieved self = None → (parse scan traj lib P self tr).2 = tr).
Proof.
  rewrite parse_table. split; [split |].
  - intros H. repeat parse_case; done.
  - by intros ->.
  - by intros ->.
Qed.

(** X2. The exit codes of the standard output stage are exact: [parse]
    returns [ERROR_OUTPUT_STDOUT_MISSING] exactly when the folder does
    not list the output file, and each sentinel code exactly when the
    output file was read and scanned to a mapping in which that sentinel
    is the first one present in the order [geo_not_converged],
    [uks_needed], [aborted]. *)
Theorem stdout_codes_exact scan traj lib (P : Cp2kParser) self :
  let code := (parse scan traj lib P self []).1 in
  let scanned (d : dict) :=
    ∃ folder text, retrieved self = Some folder
                   ∧ folder !! output_filename self = Some (Return text)
                   ∧ scan text sections = Return d in
  (code = Return ERROR_OUTPUT_STDOUT_MISSING
   ↔ ∃ folder, retrieved self = Some folder
               ∧ folder !! output_filename self = None)
  ∧ (code = Return ERROR_GEOMETRY_CONVERGENCE_NOT_REACHED
     ↔ ∃ d, scanned d ∧ has_key "geo_not_converged" d = true)
  ∧ (code = Return ERROR_UKS_NEEDED
     ↔ ∃ d, scanned d ∧ has_key "geo_not_converged" d = false
            ∧ has_key "uks_needed" d = true)
  ∧ (code = Return ERROR_OUTPUT_CONTAINS_ABORT
     ↔ ∃ d, scanned d ∧ has_key "geo_not_converged" d = false
            ∧ has_key "uks_needed" d = false ∧ has_key "aborted" d = true).
Proof.
  intros code scanned. subst code scanned. rewrite parse_table.
  destruct (retrieved self) as [folder |] eqn:Hr; [| settle_codes].
  destruct (folder !! output_filename self) as [[e | text] |] eqn:Hf;
    [destruct (is_IOError e); settle_codes | | settle_codes].
  simpl.
  destruct (scan text sections) as [e | d] eqn:Hs; [settle_codes |].
  destruct (has_key "geo_not_converged" d) eqn:Hgeo; [settle_codes |].
  destruct (has_key "uks_needed" d) eqn:Huks; [settle_codes |].
  destruct (has_key "aborted" d) eqn:Hab; [settle_codes |].
  destruct (_create_output_nodes d _) as [[e | []] tr2]; [settle_codes |].
  destruct (folder !! _DEFAULT_RESTART_FILE_NAME self) as [[e | restart] |];
    [destruct (is_IOError e), (is_NotExistent e); settle_codes | | settle_codes].
  destruct (traj restart) as [e | kwargs];
    [destruct (is_NotExistent e); settle_codes |].
  destruct (validate_structure lib kwargs) as [e | []];
    [destruct (is_NotExistent e) |]; settle_codes.
Qed.

(** X3. Every exit code other than [ExitCode(0)] and
    [ERROR_OUTPUT_STDOUT_READ] means that no node was registered. *)
Theorem error_code_without_nodes scan traj lib (P : Cp2kParser) self c tr :
  parse scan traj lib P self [] = (Return c, tr) →
  c ≠ ExitCode_0 →
  c ≠ ERROR_OUTPUT_STDOUT_READ →
  outputs_of tr = [].
Proof.
  rewrite parse_table. intros H Hc0 Hread.
  repeat parse_case; done.
Qed.

Lemma error_code_without_nodes_aborted_run :
  outputs_of (parse (scan_as aborted_bands_run) (trajectory_as ∅) accepting
                Cp2kBaseParser sample_calc []).2 = [].
Proof.
  apply (error_code_without_nodes (scan_as aborted_bands_run) (trajectory_as ∅) accepting
           Cp2kBaseParser sample_calc ERROR_OUTPUT_CONTAINS_ABORT).
  - vm_compute. reflexivity.
  - done.
  - done.
Defined.

(** X4. A parse that returns [ExitCode(0)] has registered an
    [output_parameters] node, and its mapping holds no status sentinel;
    this for either parser class. *)
Theorem success_has_parameters scan traj lib (P : Cp2kParser) self tr :
  P = Cp2kBaseParser ∨ P = Cp2kAdvancedParser lib →
  parse scan traj lib P self [] = (Return ExitCode_0, tr) →
  ∃ d, ("output_parameters", Dict d) ∈ outputs_of tr ∧ sentinel_set d = false.
Proof.
  intros HP. rewrite parse_table. intros H.
  destruct (retrieved self) as [folder |]; [| done].
  destruct (folder !! output_filename self) as [[e | text] |];
    [by destruct (is_IOError e) | | done].
  simpl in H.
  destruct (scan text sections) as [e | d]; [done |].
  destruct (has_key "geo_not_converged" d) eqn:Hgeo; [done |].
  destruct (has_key "uks_needed" d) eqn:Huks; [done |].
  destruct (has_key "aborted" d) eqn:Hab; [done |].
  destruct (_create_output_nodes d _) as [[e | []] tr2] eqn:Hc; [done |].
  destruct (nodes_registered lib P d _ tr2 HP Hc) as (d' & Hsent & Hin).
  exists d'. split.
  - assert (∃ rest, tr = tr2 ++ rest) as [rest ->].
    { repeat parse_case; eauto. }
    apply registered, elem_of_app. by left.
  - rewrite Hsent. unfold sentinel_set. by rewrite Hgeo, Huks, Hab.
Qed.

Lemma success_has_parameters_sample :
  ∃ d, ("output_parameters", Dict d)
       ∈ outputs_of (parse (scan_as bands_run) (trajectory_as sample_atoms) accepting
                       (Cp2kAdvancedParser accepting) restart_calc []).2
       ∧ sentinel_set d = false.
Proof.
  apply (success_has_parameters (scan_as bands_run) (trajectory_as sample_atoms) accepting
           (Cp2kAdvancedParser accepting) restart_calc).
  - by right.
  - vm_compute. reflexivity.
Defined.

(** X5. An exception of the scanner leaves [parse] as it is, whichever
    exception it is: no node is registered and the restart file is
    neither looked for nor read. *)
Theorem scanner_exception_propagates
    scan traj lib (P : Cp2kParser) self folder text e :
  retrieved self = Some folder →
  folder !! output_filename self = Some (Return text) →
  scan text sections = Raise e →
  parse scan traj lib P self []
  = (Raise e,
     [EListObjectNames; EGetObjectContent (output_filename self);
      EParseOutput text sections]).
Proof.
  intros Hr Hf Hs. rewrite parse_table, Hr, Hf. simpl. by rewrite Hs.
Qed.

Lemma scanner_exception_propagates_sample :
  parse (scan_raising NotExistent) (trajectory_as sample_atoms) accepting
    (Cp2kAdvancedParser accepting) restart_calc []
  = (Raise NotExistent,
     [EListObjectNames; EGetObjectContent "aiida.out";
      EParseOutput "CP2K" (@sections (Cp2kAdvancedParser accepting))]).
Proof.
  apply (scanner_exception_propagates (scan_raising NotExistent)
           (trajectory_as sample_atoms) accepting (Cp2kAdvancedParser accepting) restart_calc
           (<["aiida.out" := Return "CP2K"]>
              (<["aiida-1.restart" := Return "RESTART"]> ∅)) "CP2K" NotExistent).
  - reflexivity.
  - vm_compute. reflexivity.
  - reflexivity.
Defined.

(** ** The restart file *)

(** X6. With a restart file that is read and parsed, and keyword
    arguments that [Atoms] and [StructureData] accept, [parse] returns
    [ExitCode(0)] and registers, after the nodes of the standard output
    stage, the structure built from the keyword arguments of the
    trajectory parser as [output_structure]. *)
Theorem restart_parsed_last
    scan traj lib (P : Cp2kParser) self folder text kwargs d tr1 tr2 :
  retrieved self = Some folder →
  folder !! _DEFAULT_RESTART_FILE_NAME self = Some (Return text) →
  traj text = Return kwargs →
  validate_structure lib kwargs = Return () →
  _parse_stdout scan P self [] = (Return (Value d), tr1) →
  _create_output_nodes d tr1 = (Return (), tr2) →
  ∃ tr, parse scan traj lib P self [] = (Return ExitCode_0, tr)
        ∧ outputs_of tr
          = outputs_of tr2 ++ [("output_structure", StructureData kwargs)]
        ∧ reads tr = reads tr2 ++ [_DEFAULT_RESTART_FILE_NAME self].
Proof.
  intros Hr Hf Ht Hv Hs Hc.
  rewrite (parse_after_nodes scan traj lib P self folder d [] tr1 tr2 Hr Hs Hc).
  simpl. rewrite Hf, Ht, Hv. eexists. split; [done |].
  unfold reads. rewrite outputs_of_app, omap_app. done.
Qed.

Lemma restart_parsed_last_sample :
  ∃ tr, parse (scan_as bands_run) (trajectory_as sample_atoms) accepting
          Cp2kBaseParser restart_calc [] = (Return ExitCode_0, tr)
        ∧ outputs_of tr
          = outputs_of [EListObjectNames; EGetObjectContent "aiida.out";
                        EParseOutput "CP2K" (@sections Cp2kBaseParser);
                        EOut "output_parameters" (Dict bands_run)]
            ++ [("output_structure", StructureData sample_atoms)]
        ∧ reads tr
          = reads [EListObjectNames; EGetObjectContent "aiida.out";
                   EParseOutput "CP2K" (@sections Cp2kBaseParser);
                   EOut "output_parameters" (Dict bands_run)]
            ++ ["aiida-1.restart"].
Proof.
  apply (restart_parsed_last (scan_as bands_run) (trajectory_as sample_atoms) accepting
           Cp2kBaseParser restart_calc
           (<["aiida.out" := Return "CP2K"]>
              (<["aiida-1.restart" := Return "RESTART"]> ∅))
           "RESTART" sample_atoms bands_run
           [EListObjectNames; EGetObjectContent "aiida.out";
            EParseOutput "CP2K" (@sections Cp2kBaseParser)]).
  - reflexivity.
  - vm_compute. reflexivity.
  - reflexivity.
  - reflexivity.
  - vm_compute. reflexivity.
  - vm_compute. reflexivity.
Defined.

(** X7. An exception of the trajectory parser reaches the caller of
    [parse], with the nodes of the standard output stage registered and
    no [output_structure], unless the exception is [NotExistent]: that
    one [parse] takes for a missing restart file and returns
    [ExitCode(0)]. *)
Theorem trajectory_exception_surfaces
    scan traj lib (P : Cp2kParser) self folder text e d tr1 tr2 :
  retrieved self = Some folder →
  folder !! _DEFAULT_RESTART_FILE_NAME self = Some (Return text) →
  traj text = Raise e →
  _parse_stdout scan P self [] = (Return (Value d), tr1) →
  _create_output_nodes d tr1 = (Return (), tr2) →
  ∃ tr, outputs_of tr = outputs_of tr2
        ∧ (e ≠ NotExistent → parse scan traj lib P self [] = (Raise e, tr))
        ∧ (e = NotExistent → parse scan traj lib P self [] = (Return ExitCode_0, tr)).
Proof.
  intros Hr Hf Ht Hs Hc.
  rewrite (parse_after_nodes scan traj lib P self folder d [] tr1 tr2 Hr Hs Hc).
  simpl. rewrite Hf, Ht.
  exists (tr2 ++ [EListObjectNames;
                  EGetObjectContent (_DEFAULT_RESTART_FILE_NAME self);
                  EParseTrajectory text]).
  split_and!.
  - rewrite outputs_of_app. simpl. by rewrite app_nil_r.
  - intros He. by destruct e.
  - by intros ->.
Qed.

Lemma trajectory_exception_surfaces_sample :
  ∃ tr, outputs_of tr
        = outputs_of [EListObjectNames; EGetObjectContent "aiida.out";
                      EParseOutput "CP2K" (@sections Cp2kBaseParser);
                      EOut "output_parameters" (Dict bands_run)]
        ∧ (ValueError ≠ NotExistent →
           parse (scan_as bands_run) (trajectory_raising ValueError) accepting
             Cp2kBaseParser restart_calc [] = (Raise ValueError, tr))
        ∧ (ValueError = NotExistent →
           parse (scan_as bands_run) (trajectory_raising ValueError) accepting
             Cp2kBaseParser restart_calc [] = (Return ExitCode_0, tr)).
Proof.
  apply (trajectory_exception_surfaces (scan_as bands_run)
           (trajectory_raising ValueError) accepting Cp2kBaseParser restart_calc
           (<["aiida.out" := Return "CP2K"]>
              (<["aiida-1.restart" := Return "RESTART"]> ∅))
           "RESTART" ValueError bands_run
           [EListObjectNames; EGetObjectContent "aiida.out";
            EParseOutput "CP2K" (@sections Cp2kBaseParser)]).
  - reflexivity.
  - vm_compute. reflexivity.
  - reflexivity.
  - vm_compute. reflexivity.
  - vm_compute. reflexivity.
Defined.

(** X8. With a restart file that cannot be read, [parse] returns
    [ERROR_OUTPUT_STDOUT_READ] while the nodes of the standard output
    stage stay registered; for either parser class these include
    [output_parameters]. *)
Theorem unreadable_restart_keeps_nodes
    scan traj lib (P : Cp2kParser) self folder d tr1 tr2 :
  P = Cp2kBaseParser ∨ P = Cp2kAdvancedParser lib →
  retrieved self = Some folder →
  folder !! _DEFAULT_RESTART_FILE_NAME self = Some (Raise IOError) →
  _parse_stdout scan P self [] = (Return (Value d), tr1) →
  _create_output_nodes d tr1 = (Return (), tr2) →
  ∃ tr, parse scan traj lib P self [] = (Return ERROR_OUTPUT_STDOUT_READ, tr)
        ∧ outputs_of tr = outputs_of tr2
        ∧ ∃ d', ("output_parameters", Dict d') ∈ outputs_of tr.
Proof.
  intros HP Hr Hf Hs Hc.
  rewrite (parse_after_nodes scan traj lib P self folder d [] tr1 tr2 Hr Hs Hc).
  simpl. rewrite Hf. eexists. split; [done |].
  assert (outputs_of (tr2 ++ [EListObjectNames;
                              EGetObjectContent (_DEFAULT_RESTART_FILE_NAME self)])
          = outputs_of tr2) as ->.
  { rewrite outputs_of_app. simpl. by rewrite app_nil_r. }
  split; [done |].
  destruct (nodes_registered lib P d tr1 tr2 HP Hc) as (d' & _ & Hin).
  exists d'. by apply registered.
Qed.

Lemma unreadable_restart_keeps_nodes_sample :
  ∃ tr, parse (scan_as bands_run) (trajectory_as sample_atoms) accepting
          Cp2kBaseParser unreadable_restart_calc []
        = (Return ERROR_OUTPUT_STDOUT_READ, tr)
        ∧ outputs_of tr
          = outputs_of [EListObjectNames; EGetObjectContent "aiida.out";
                        EParseOutput "CP2K" (@sections Cp2kBaseParser);
                        EOut "output_parameters" (Dict bands_run)]
        ∧ ∃ d', ("output_parameters", Dict d') ∈ outputs_of tr.
Proof.
  apply (unreadable_restart_keeps_nodes (scan_as bands_run)
           (trajectory_as sample_atoms) accepting Cp2kBaseParser unreadable_restart_calc
           (<["aiida.out" := Return "CP2K"]> (<["aiida-1.restart" := Raise IOError]> ∅))
           bands_run
           [EListObjectNames; EGetObjectContent "aiida.out";
            EParseOutput "CP2K" (@sections Cp2kBaseParser)]).
  - by left.
  - reflexivity.
  - vm_compute. reflexivity.
  - vm_compute. reflexivity.
  - vm_compute. reflexivity.
Defined.

(** ** Node creation of the advanced parser *)


(** ** Failures of the band gap block *)

Lemma getitem_None (d : dict) k : d !! k = None → getitem d k = Raise (KeyError k).
Proof. intros H. unfold getitem. by rewrite H. Qed.

(** X10. Missing keys: with [eigen_spin1_au] in the mapping, the band gap
    block raises [KeyError] for the first key it does not find among
    [dft_type], [init_nel_spin1], [init_nel_spin2], and, in a run that
    is not restricted, for a missing [eigen_spin2_au]; the advanced
    parser then registers no node. *)
Theorem bandgap_missing_key lib (d : dict) l1 :
  d !! "eigen_spin1_au" = Some (VList l1) →
  (d !! "dft_type" = None → compute_bandgap d = Raise (KeyError "dft_type"))
  ∧ (is_Some (d !! "dft_type") → d !! "init_nel_spin1" = None →
     compute_bandgap d = Raise (KeyError "init_nel_spin1"))
  ∧ (is_Some (d !! "dft_type") → is_Some (d !! "init_nel_spin1") →
     d !! "init_nel_spin2" = None →
     compute_bandgap d = Raise (KeyError "init_nel_spin2"))
  ∧ (∀ t n1, d !! "dft_type" = Some t → eq_str t "RKS" = false →
             d !! "init_nel_spin1" = Some (VInt n1) →
             is_Some (d !! "init_nel_spin2") →
             d !! "eigen_spin2_au" = None →
             compute_bandgap d = Raise (KeyError "eigen_spin2_au"))
  ∧ (∀ k tr, compute_bandgap d = Raise (KeyError k) →
             @_create_output_nodes (Cp2kAdvancedParser lib) d tr
             = (Raise (KeyError k), tr)).
Proof.
  intros He1. pose proof (has_key_Some _ _ _ He1) as Hkey.
  assert (∀ t, (if eq_str t "RKS"
                then getitem d "eigen_spin1_au"
                     ≫= λ eigen1, mret (<["eigen_spin2_au" := eigen1]> d)
                else mret d)
               = Return (if eq_str t "RKS"
                         then <["eigen_spin2_au" := VList l1]> d else d)) as Hsyn.
  { intros t. destruct (eq_str t "RKS"); [| done].
    by rewrite (getitem_Some _ _ _ He1). }
  split_and!.
  - intros Ht. unfold compute_bandgap. by rewrite Hkey, (getitem_None _ _ Ht).
  - intros [t Ht] Hn1. unfold compute_bandgap.
    rewrite Hkey, (getitem_Some _ _ _ Ht). simpl. rewrite Hsyn. simpl.
    set (d' := if eq_str t "RKS" then <["eigen_spin2_au" := VList l1]> d else d).
    assert (d' !! "init_nel_spin1" = None) as Hn1'.
    { subst d'. destruct (eq_str t "RKS"); [by rewrite lookup_insert_ne | done]. }
    by rewrite (getitem_None _ _ Hn1').
  - intros [t Ht] [v1 Hn1] Hn2. unfold compute_bandgap.
    rewrite Hkey, (getitem_Some _ _ _ Ht). simpl. rewrite Hsyn. simpl.
    set (d' := if eq_str t "RKS" then <["eigen_spin2_au" := VList l1]> d else d).
    assert (d' !! "init_nel_spin1" = Some v1) as Hn1'.
    { subst d'. destruct (eq_str t "RKS"); [by rewrite lookup_insert_ne | done]. }
    assert (d' !! "init_nel_spin2" = None) as Hn2'.
    { subst d'. destruct (eq_str t "RKS"); [by rewrite lookup_insert_ne | done]. }
    rewrite (getitem_Some _ _ _ Hn1'). simpl.
    by rewrite (getitem_None _ _ Hn2').
  - intros t n1 Ht Hnot Hn1 [v2 Hn2] He2. unfold compute_bandgap.
    rewrite Hkey, (getitem_Some _ _ _ Ht). simpl. rewrite Hsyn, Hnot. simpl.
    rewrite (getitem_Some _ _ _ Hn1), (getitem_Some _ _ _ Hn2). simpl.
    rewrite (getitem_Some _ _ _ He1). simpl. rewrite ?gt_last_list.
    destruct (bool_decide (n1 > len l1 - 1)); simpl.
    + rewrite (last_idx_list _ _ _ He1). simpl.
      unfold last_idx. by rewrite (getitem_None _ _ He2).
    + by rewrite (getitem_None _ _ He2).
  - intros k tr Hraise. simpl. unfold mbind at 1, M_bind at 1, lift.
    by rewrite Hraise.
Qed.

Lemma bandgap_missing_key_sample :
  compute_bandgap untyped_run = Raise (KeyError "dft_type")
  ∧ @_create_output_nodes (Cp2kAdvancedParser accepting) untyped_run []
    = (Raise (KeyError "dft_type"), []).
Proof.
  destruct (bandgap_missing_key accepting untyped_run (VFloat <$> sample_eigen))
    as (Hdft & _ & _ & _ & Hnodes); [vm_compute; reflexivity |].
  assert (compute_bandgap untyped_run = Raise (KeyError "dft_type")) as Hraise.
  { apply Hdft. vm_compute. reflexivity. }
  split; [exact Hraise | by apply Hnodes].
Defined.

Lemma py_index_nil i : py_index [] i = Raise IndexError.
Proof.
  unfold py_index. simpl. by case_match.
Qed.

Lemma py_index_raises l i e : py_index l i = Raise e → e = IndexError.
Proof. unfold py_index. repeat case_match; congruence. Qed.

Lemma eigen_at_list (d : dict) k l i :
  d !! k = Some (VList l) → eigen_at d k i = py_index l i.
Proof. intros Hk. unfold eigen_at. by rewrite (getitem_Some _ _ _ Hk). Qed.

(** The band gap block on a mapping with its keys in place, down to the
    four look-ups. *)
Lemma compute_bandgap_lookups (d : dict) t l1 l2 n1 n2 :
  d !! "eigen_spin1_au" = Some (VList l1) →
  d !! "dft_type" = Some t →
  (if eq_str t "RKS" then l2 = l1 else d !! "eigen_spin2_au" = Some (VList l2)) →
  d !! "init_nel_spin1" = Some (VInt n1) →
  d !! "init_nel_spin2" = Some (VInt n2) →
  let over := bool_decide (n1 > len l1 - 1 ∨ n2 > len l2 - 1) in
  let i1 := if over then len l1 - 1 else n1 in
  let i2 := if over then len l2 - 1 else n2 in
  compute_bandgap d
  = (homo1 ← py_index l1 (i1 - 1);
     homo2 ← py_index l2 (i2 - 1);
     lumo1 ← py_index l1 i1;
     lumo2 ← py_index l2 i2;
     gap1 ← py_sub lumo1 homo1;
     gap2 ← py_sub lumo2 homo2;
     mret (<["bandgap_spin2_au" := gap2]>
             (<["bandgap_spin1_au" := gap1]>
                (if eq_str t "RKS" then <["eigen_spin2_au" := VList l1]> d
                 else d)))).
Proof.
  intros He1 Ht He2 Hn1 Hn2 over i1 i2.
  set (d' := if eq_str t "RKS" then <["eigen_spin2_au" := VList l1]> d else d).
  assert (d' !! "eigen_spin1_au" = Some (VList l1)
          ∧ d' !! "eigen_spin2_au" = Some (VList l2)
          ∧ d' !! "init_nel_spin1" = Some (VInt n1)
          ∧ d' !! "init_nel_spin2" = Some (VInt n2)) as (He1' & He2' & Hn1' & Hn2').
  { subst d'. destruct (eq_str t "RKS").
    - subst l2. rewrite lookup_insert_eq, !lookup_insert_ne by done. done.
    - done. }
  unfold compute_bandgap.
  rewrite (has_key_Some _ _ _ He1), (getitem_Some _ _ _ Ht). simpl.
  assert ((if eq_str t "RKS"
           then getitem d "eigen_spin1_au"
                ≫= λ eigen1, mret (<["eigen_spin2_au" := eigen1]> d)
           else mret d) = Return d') as ->.
  { subst d'. destruct (eq_str t "RKS"); [| done].
    by rewrite (getitem_Some _ _ _ He1). }
  simpl.
  rewrite (getitem_Some _ _ _ Hn1'), (getitem_Some _ _ _ Hn2'). simpl.
  rewrite (getitem_Some _ _ _ He1'), (getitem_Some _ _ _ He2'). simpl.
  rewrite !gt_last_list.
  assert ((if bool_decide (n1 > len l1 - 1) then mret true
           else Return (bool_decide (n2 > len l2 - 1))) = Return over) as ->.
  { subst over. unfold mret, outcome_ret.
    repeat case_bool_decide; try done; lia. }
  simpl.
  rewrite (last_idx_list _ _ _ He1'), (last_idx_list _ _ _ He2'). simpl.
  assert ((if over then mret (len l1 - 1, len l2 - 1) else mret (n1, n2))
          = Return (i1, i2)) as ->.
  { subst i1 i2. by destruct over. }
  simpl.
  by rewrite !(eigen_at_list _ _ _ _ He1'), !(eigen_at_list _ _ _ _ He2').
Qed.

(** X11. An empty eigenvalue sequence in either channel makes the band
    gap block raise [IndexError], whatever the two occupation counts
    are, and the advanced parser then registers no node. *)
Theorem empty_channel_raises lib (d : dict) t l1 l2 n1 n2 :
  d !! "eigen_spin1_au" = Some (VList l1) →
  d !! "dft_type" = Some t →
  (if eq_str t "RKS" then l2 = l1 else d !! "eigen_spin2_au" = Some (VList l2)) →
  d !! "init_nel_spin1" = Some (VInt n1) →
  d !! "init_nel_spin2" = Some (VInt n2) →
  l1 = [] ∨ l2 = [] →
  compute_bandgap d = Raise IndexError
  ∧ ∀ tr, @_create_output_nodes (Cp2kAdvancedParser lib) d tr = (Raise IndexError, tr).
Proof.
  intros He1 Ht He2 Hn1 Hn2 Hempty.
  assert (compute_bandgap d = Raise IndexError) as Hraise.
  { rewrite (compute_bandgap_lookups d t l1 l2 n1 n2) by done.
    destruct Hempty as [-> | ->].
    - by rewrite !py_index_nil.
    - rewrite !py_index_nil.
      match goal with
      | |- ?o ≫= _ = _ => destruct o as [e | homo1] eqn:Hidx
      end; [by rewrite (py_index_raises _ _ _ Hidx) | done]. }
  split; [exact Hraise |].
  intros tr. simpl. unfold mbind at 1, M_bind at 1, lift. by rewrite Hraise.
Qed.

Lemma empty_channel_raises_sample :
  compute_bandgap one_electron_run = Raise IndexError
  ∧ ∀ tr, @_create_output_nodes (Cp2kAdvancedParser accepting) one_electron_run tr
          = (Raise IndexError, tr).
Proof.
  apply (empty_channel_raises accepting one_electron_run (VStr "UKS")
           [VFloat (-0.5)%float] [] 1 0).
  - vm_compute. reflexivity.
  - vm_compute. reflexivity.
  - vm_compute. reflexivity.
  - vm_compute. reflexivity.
  - vm_compute. reflexivity.
  - by right.
Defined.



(** X13. The band gap block touches three keys at most: when it
    returns, every entry other than [eigen_spin2_au], [bandgap_spin1_au]
    and [bandgap_spin2_au] is as it was; without [eigen_spin1_au] the
    mapping is returned unchanged; with it, both band gaps are stored and
    [eigen_spin2_au] is the first channel in a restricted run and
    untouched otherwise. *)
Theorem bandgap_touches_three_keys (d d1 : dict) :
  compute_bandgap d = Return d1 →
  (∀ k, k ≠ "eigen_spin2_au" → k ≠ "bandgap_spin1_au" →
        k ≠ "bandgap_spin2_au" → d1 !! k = d !! k)
  ∧ (has_key "eigen_spin1_au" d = false → d1 = d)
  ∧ (has_key "eigen_spin1_au" d = true →
     is_Some (d1 !! "bandgap_spin1_au") ∧ is_Some (d1 !! "bandgap_spin2_au")
     ∧ ∃ t, d !! "dft_type" = Some t
            ∧ d1 !! "eigen_spin2_au"
              = if eq_str t "RKS" then d !! "eigen_spin1_au"
                else d !! "eigen_spin2_au").
Proof.
  intros H. split_and!.
  - intros k K1 K2 K3. by apply (compute_bandgap_frame d d1 k H).
  - intros Hno. unfold compute_bandgap in H. rewrite Hno in H.
    by injection H as <-.
  - intros Hyes. unfold compute_bandgap in H. rewrite Hyes in H.
    apply outcome_bind_inv in H as (t & Ht & H).
    apply outcome_bind_inv in H as (d' & Hd' & H).
    do 4 (apply outcome_bind_inv in H as (? & _ & H)).
    apply outcome_bind_inv in H as ([i1 i2] & _ & H).
    do 6 (apply outcome_bind_inv in H as (? & _ & H)).
    injection H as <-.
    split; [rewrite lookup_insert_ne by done; rewrite lookup_insert_eq; eauto |].
    split; [rewrite lookup_insert_eq; eauto |].
    exists t. split.
    { unfold getitem in Ht. destruct (d !! "dft_type"); by simplify_eq. }
    rewrite !lookup_insert_ne by done.
    destruct (eq_str t "RKS"); [| by injection Hd' as <-].
    apply outcome_bind_inv in Hd' as (e & He & Hd'). injection Hd' as <-.
    rewrite lookup_insert_eq.
    unfold getitem in He. destruct (d !! "eigen_spin1_au"); by simplify_eq.
Qed.

Lemma bandgap_touches_three_keys_sample :
  <["bandgap_spin2_au" := VFloat 1.25]>
    (<["bandgap_spin1_au" := VFloat 0.75]> crossed_run) !! "init_nel_spin1"
  = crossed_run !! "init_nel_spin1"
  ∧ <["bandgap_spin2_au" := VFloat 1.25]>
      (<["bandgap_spin1_au" := VFloat 0.75]> crossed_run) !! "eigen_spin2_au"
    = crossed_run !! "eigen_spin2_au".
Proof.
  destruct (bandgap_touches_three_keys crossed_run
              (<["bandgap_spin2_au" := VFloat 1.25]>
                 (<["bandgap_spin1_au" := VFloat 0.75]> crossed_run)))
    as (Hother & _ & Hset); [vm_compute; reflexivity |].
  split; [by apply Hother |].
  destruct Hset as (_ & _ & t & Ht & ->); [vm_compute; reflexivity |].
  assert (t = VStr "UKS") as ->.
  { assert (crossed_run !! "dft_type" = Some (VStr "UKS")) as Heq
      by (vm_compute; reflexivity).
    rewrite Heq in Ht. congruence. }
  reflexivity.
Defined.

(** ** What [parse] asks of the folder *)

Lemma reads_app tr1 tr2 : reads (tr1 ++ tr2) = reads tr1 ++ reads tr2.
Proof. apply omap_app. Qed.

(** The node creation of either class reads nothing. *)
Lemma nodes_read_nothing lib (P : Cp2kParser) (d : dict) tr1 r tr2 :
  P = Cp2kBaseParser ∨ P = Cp2kAdvancedParser lib →
  _create_output_nodes d tr1 = (r, tr2) →
  reads tr2 = reads tr1.
Proof.
  intros [-> | ->] Hc.
  - simpl in Hc. unfold emit in Hc. injection Hc as _ <-.
    rewrite reads_app. simpl. by rewrite app_nil_r.
  - pose proof (advanced_nodes_cases lib d tr1) as Hcases. rewrite Hc in Hcases.
    destruct r as [e | []]; [by destruct Hcases as [-> _] |].
    destruct Hcases as (d1 & d2 & tr & _ & Hprom & ->).
    destruct (promote_kpoints_inv lib d1 d2 tr1 tr Hprom)
      as [_ [[_ ->] | [_ [b ->]]]];
      rewrite !reads_app; simpl; by rewrite !app_nil_r.
Qed.

(** X14. [parse] reads the output file at most once and the restart file
    at most once, the restart file after the output file, and never asks
    for the content of an object that the folder does not list; this
    for either parser class. *)
Theorem reads_only_listed_objects scan traj lib (P : Cp2kParser) self folder r tr :
  P = Cp2kBaseParser ∨ P = Cp2kAdvancedParser lib →
  retrieved self = Some folder →
  parse scan traj lib P self [] = (r, tr) →
  (reads tr = []
   ∨ reads tr = [output_filename self]
   ∨ reads tr = [output_filename self; _DEFAULT_RESTART_FILE_NAME self])
  ∧ ∀ fname, fname ∈ reads tr → is_Some (folder !! fname).
Proof.
  intros HP Hr. rewrite parse_table, Hr.
  destruct (folder !! output_filename self) as [[e | text] |] eqn:Hf.
  - intros [= <- <-]. split; [by right; left |].
    intros fname Hin. list_members Hin.
  - simpl.
    destruct (scan text sections) as [e | d];
      [intros [= <- <-]; split; [by right; left |];
       intros fname Hin; list_members Hin |].
    destruct (has_key "geo_not_converged" d);
      [intros [= <- <-]; split; [by right; left |];
       intros fname Hin; list_members Hin |].
    destruct (has_key "uks_needed" d);
      [intros [= <- <-]; split; [by right; left |];
       intros fname Hin; list_members Hin |].
    destruct (has_key "aborted" d);
      [intros [= <- <-]; split; [by right; left |];
       intros fname Hin; list_members Hin |].
    destruct (_create_output_nodes d _) as [r2 tr2] eqn:Hc.
    pose proof (nodes_read_nothing lib P d _ r2 tr2 HP Hc) as Hreads.
    simpl in Hreads.
    destruct r2 as [e | []].
    { intros [= <- <-]. rewrite Hreads. split; [by right; left |].
      intros fname Hin. list_members Hin. }
    destruct (folder !! _DEFAULT_RESTART_FILE_NAME self) as [[e | restart] |] eqn:Hf2.
    + intros [= <- <-]. rewrite reads_app, Hreads. simpl.
      split; [by right; right |].
      intros fname Hin. list_members Hin.
    + destruct (traj restart) as [e | kwargs];
        [| destruct (validate_structure lib kwargs) as [e | []]];
        intros [= <- <-];
        rewrite reads_app, Hreads; simpl;
        (split; [by right; right |]);
        intros fname Hin; list_members Hin.
    + intros [= <- <-]. rewrite reads_app, Hreads. simpl.
      split; [by right; left |].
      intros fname Hin. list_members Hin.
  - intros [= <- <-]. split; [by left |].
    intros fname Hin. list_members Hin.
Qed.

Lemma reads_only_listed_objects_sample :
  (reads (parse (scan_as bands_run) (trajectory_as sample_atoms) accepting
            (Cp2kAdvancedParser accepting) restart_calc []).2 = []
   ∨ reads (parse (scan_as bands_run) (trajectory_as sample_atoms) accepting
              (Cp2kAdvancedParser accepting) restart_calc []).2 = ["aiida.out"]
   ∨ reads (parse (scan_as bands_run) (trajectory_as sample_atoms) accepting
              (Cp2kAdvancedParser accepting) restart_calc []).2
     = ["aiida.out"; "aiida-1.restart"])
  ∧ ∀ fname,
      fname ∈ reads (parse (scan_as bands_run) (trajectory_as sample_atoms) accepting
                       (Cp2kAdvancedParser accepting) restart_calc []).2 →
      is_Some ((<["aiida.out" := Return "CP2K"]>
                  (<["aiida-1.restart" := Return "RESTART"]> ∅)
                : gmap string (outcome string)) !! fname).
Proof.
  apply (reads_only_listed_objects (scan_as bands_run) (trajectory_as sample_atoms) accepting
           (Cp2kAdvancedParser accepting) restart_calc
           (<["aiida.out" := Return "CP2K"]>
              (<["aiida-1.restart" := Return "RESTART"]> ∅))
           (parse (scan_as bands_run) (trajectory_as sample_atoms) accepting
              (Cp2kAdvancedParser accepting) restart_calc []).1).
  - by right.
  - reflexivity.
  - by destruct (parse _ _ _ _ _).
Defined.

(** ** Exceptions of the libraries *)

(** X16. When [set_kpoints], the [labels] setter or [set_bands] rejects
    its argument, [Cp2kAdvancedParser._create_output_nodes] raises that
    exception before any [self.out]: neither [output_bands] nor
    [output_parameters] is registered. *)
Theorem rejected_bands_register_nothing
    lib (d d1 kp : dict) kpts lbls bs units e tr :
  compute_bandgap d = Return d1 →
  d !! "kpoint_data" = Some (VDict kp) →
  kp !! "kpoints" = Some kpts →
  kp !! "labels" = Some lbls →
  kp !! "bands" = Some bs →
  kp !! "bands_unit" = Some units →
  validate_kpoints lib BandsData_new kpts = Raise e
  ∨ validate_kpoints lib BandsData_new kpts = Return ()
    ∧ (validate_labels lib (mk_bands (Some kpts) None None None) lbls = Raise e
       ∨ validate_labels lib (mk_bands (Some kpts) None None None) lbls = Return ()
         ∧ validate_bands lib (mk_bands (Some kpts) (Some lbls) None None) bs units
           = Raise e) →
  @_create_output_nodes (Cp2kAdvancedParser lib) d tr = (Raise e, tr).
Proof.
  intros Hgap Hkp H1 H2 H3 H4 Hrej.
  assert (d1 !! "kpoint_data" = Some (VDict kp)) as Hkp1.
  { by rewrite (compute_bandgap_frame d d1 "kpoint_data" Hgap). }
  simpl. unfold mbind at 1, M_bind at 1, lift. rewrite Hgap.
  unfold mbind at 1, M_bind at 1.
  assert (promote_kpoints lib d1 tr = (Raise e, tr)) as ->; [| done].
  unfold promote_kpoints.
  rewrite (has_key_Some _ _ _ Hkp1), (getitem_Some _ _ _ Hkp1). simpl.
  unfold subscript.
  rewrite (getitem_Some _ _ _ H1), (getitem_Some _ _ _ H2),
    (getitem_Some _ _ _ H3), (getitem_Some _ _ _ H4).
  unfold_M. unfold set_kpoints.
  destruct Hrej as [V1 | [V1 Hrej]]; rewrite V1; [done |]. simpl.
  unfold set_labels. simpl.
  destruct Hrej as [V2 | [V2 V3]]; rewrite V2; [done |]. simpl.
  unfold set_bands. simpl. by rewrite V3.
Qed.

Lemma rejected_bands_register_nothing_sample :
  @_create_output_nodes (Cp2kAdvancedParser rejecting) bands_run []
  = (Raise ValueError, []).
Proof.
  apply (rejected_bands_register_nothing rejecting bands_run bands_run
           sample_kpoint_data
           (VList [floats [0.0%float; 0.0%float; 0.0%float];
                   floats [0.5%float; 0.0%float; 0.0%float]])
           (VList [VList [VInt 0; VStr "GAMMA"]; VList [VInt 1; VStr "X"]])
           (VList [floats [(-3.5)%float; 1.25%float];
                   floats [(-3.0)%float; 1.5%float]])
           (VStr "eV") ValueError []).
  - vm_compute. reflexivity.
  - vm_compute. reflexivity.
  - vm_compute. reflexivity.
  - vm_compute. reflexivity.
  - vm_compute. reflexivity.
  - vm_compute. reflexivity.
  - right. split; [reflexivity |]. right. split; reflexivity.
Defined.

(** X17. When [ase.Atoms] or [StructureData] rejects the keyword
    arguments of the trajectory parser, the exception reaches the caller
    of [parse] with the nodes of the standard output stage registered
    and no [output_structure], unless it is [NotExistent], which [parse]
    takes for a missing restart file. *)
Theorem rejected_structure_surfaces
    scan traj lib (P : Cp2kParser) self folder text kwargs e d tr1 tr2 :
  retrieved self = Some folder →
  folder !! _DEFAULT_RESTART_FILE_NAME self = Some (Return text) →
  traj text = Return kwargs →
  validate_structure lib kwargs = Raise e →
  _parse_stdout scan P self [] = (Return (Value d), tr1) →
  _create_output_nodes d tr1 = (Return (), tr2) →
  ∃ tr, outputs_of tr = outputs_of tr2
        ∧ (e ≠ NotExistent → parse scan traj lib P self [] = (Raise e, tr))
        ∧ (e = NotExistent → parse scan traj lib P self [] = (Return ExitCode_0, tr)).
Proof.
  intros Hr Hf Ht Hv Hs Hc.
  rewrite (parse_after_nodes scan traj lib P self folder d [] tr1 tr2 Hr Hs Hc).
  simpl. rewrite Hf, Ht, Hv.
  exists (tr2 ++ [EListObjectNames;
                  EGetObjectContent (_DEFAULT_RESTART_FILE_NAME self);
                  EParseTrajectory text]).
  split_and!.
  - rewrite outputs_of_app. simpl. by rewrite app_nil_r.
  - intros He. by destruct e.
  - by intros ->.
Qed.

Lemma rejected_structure_surfaces_sample :
  ∃ tr, outputs_of tr
        = outputs_of [EListObjectNames; EGetObjectContent "aiida.out";
                      EParseOutput "CP2K" (@sections Cp2kBaseParser);
                      EOut "output_parameters" (Dict bands_run)]
        ∧ (ValueError ≠ NotExistent →
           parse (scan_as bands_run) (trajectory_as sample_atoms) rejecting
             Cp2kBaseParser restart_calc [] = (Raise ValueError, tr))
        ∧ (ValueError = NotExistent →
           parse (scan_as bands_run) (trajectory_as sample_atoms) rejecting
             Cp2kBaseParser restart_calc [] = (Return ExitCode_0, tr)).
Proof.
  apply (rejected_structure_surfaces (scan_as bands_run)
           (trajectory_as sample_atoms) rejecting Cp2kBaseParser restart_calc
           (<["aiida.out" := Return "CP2K"]>
              (<["aiida-1.restart" := Return "RESTART"]> ∅))
           "RESTART" sample_atoms ValueError bands_run
           [EListObjectNames; EGetObjectContent "aiida.out";
            EParseOutput "CP2K" (@sections Cp2kBaseParser)]).
  - reflexivity.
  - vm_compute. reflexivity.
  - reflexivity.
  - reflexivity.
  - vm_compute. reflexivity.
  - vm_compute. reflexivity.
Defined.

(** X18. Only [IOError] is turned into [ERROR_OUTPUT_STDOUT_READ]: when
    reading the output file raises another exception, a decoding error
    for one, [parse] raises it after the one read, with no scan and no
    node. *)
Theorem read_error_escapes scan traj lib (P : Cp2kParser) self folder e :
  retrieved self = Some folder →
  folder !! output_filename self = Some (Raise e) →
  e ≠ IOError →
  parse scan traj lib P self []
  = (Raise e, [EListObjectNames; EGetObjectContent (output_filename self)]).
Proof.
  intros Hr Hf He. rewrite parse_table, Hr, Hf. simpl.
  by destruct e.
Qed.

Lemma read_error_escapes_sample :
  parse (scan_as bands_run) (trajectory_as sample_atoms) accepting
    (Cp2kAdvancedParser accepting) undecodable_stdout_calc []
  = (Raise ValueError, [EListObjectNames; EGetObjectContent "aiida.out"]).
Proof.
  apply (read_error_escapes (scan_as bands_run) (trajectory_as sample_atoms)
           accepting (Cp2kAdvancedParser accepting) undecodable_stdout_calc
           (<["aiida.out" := Raise ValueError]> ∅) ValueError).
  - reflexivity.
  - vm_compute. reflexivity.
  - done.
Defined.
